(** * GCMC adsorption notebook: calibration, averaging and bookkeeping

    A shallow embedding of the original logic of
    [cassandra-gcmc-adsorption/mc_gcmc-zeolite.ipynb]: the chemical-potential
    sweep, the per-run directory bookkeeping, the post-equilibration averages,
    the fit of mu against ln(P) and its use for the production runs.

    Conventions.  A finite double is idealised as a real number (rounding is
    outside the model); the non-finite doubles NaN and the two infinities are
    kept as values of their own, because the notebook can produce them.
    NumPy integers are [Z].  Python exceptions are the [Raise] branch of
    [pyresult]. *)

From Stdlib Require Import Reals Lra Lia ZArith List String.
From stdpp Require Import base gmap strings pretty.
Import ListNotations.

Set Default Proof Using "Type".

(** ** Python exceptions *)

Inductive pyexn : Set :=
| FileExistsError
| FileNotFoundError
| IndexError
| OSError
| ValueError.

Inductive pyresult (A : Type) : Type :=
| Ok (a : A)
| Raise (e : pyexn).
Arguments Ok {A} a.
Arguments Raise {A} e.

Definition py_bind {A B} (m : pyresult A) (k : A -> pyresult B) : pyresult B :=
  match m with
  | Ok a => k a
  | Raise e => Raise e
  end.

Fixpoint py_foldM {A S} (f : A -> S -> pyresult S) (l : list A) (s : S)
  : pyresult S :=
  match l with
  | [] => Ok s
  | a :: l' => py_bind (f a s) (py_foldM f l')
  end.

Fixpoint py_mapM {A B} (f : A -> pyresult B) (l : list A) : pyresult (list B) :=
  match l with
  | [] => Ok []
  | a :: l' =>
      py_bind (f a) (fun b => py_bind (py_mapM f l') (fun bs => Ok (b :: bs)))
  end.

(** ** NumPy: doubles, reductions, ranges and array indexing *)

Module NumPy.

Local Open Scope R_scope.

(** A double: a finite value, or one of the three non-finite ones. *)
Inductive float64 : Type :=
| Fin (r : R)
| PInf
| NInf
| NaN.

Definition isfinite (x : float64) : bool :=
  match x with Fin _ => true | _ => false end.

Definition inf_of_sign (positive : bool) : float64 :=
  if positive then PInf else NInf.

Definition neg (x : float64) : float64 :=
  match x with
  | Fin r => Fin (- r)
  | PInf => NInf
  | NInf => PInf
  | NaN => NaN
  end.

Definition add (x y : float64) : float64 :=
  match x, y with
  | NaN, _ | _, NaN => NaN
  | Fin a, Fin b => Fin (a + b)
  | PInf, NInf | NInf, PInf => NaN
  | PInf, _ | _, PInf => PInf
  | NInf, _ | _, NInf => NInf
  end.

Definition sub (x y : float64) : float64 := add x (neg y).

(** Infinity times a finite value: the sign follows the factor, and
    infinity times zero is NaN. *)
Definition scale_inf (positive : bool) (a : R) : float64 :=
  if Rlt_dec 0 a then inf_of_sign positive
  else if Rlt_dec a 0 then inf_of_sign (negb positive)
  else NaN.

Definition mul (x y : float64) : float64 :=
  match x, y with
  | NaN, _ | _, NaN => NaN
  | Fin a, Fin b => Fin (a * b)
  | PInf, Fin a | Fin a, PInf => scale_inf true a
  | NInf, Fin a | Fin a, NInf => scale_inf false a
  | PInf, PInf | NInf, NInf => PInf
  | PInf, NInf | NInf, PInf => NInf
  end.

(** Division; a finite value over zero gives an infinity of its sign and
    zero over zero gives NaN (NumPy warns and goes on, it does not raise). *)
Definition div (x y : float64) : float64 :=
  match x, y with
  | NaN, _ | _, NaN => NaN
  | Fin a, Fin b =>
      if Req_dec_T b 0 then scale_inf true a else Fin (a / b)
  | Fin _, _ => Fin 0
  | PInf, Fin b => if Rlt_dec b 0 then NInf else PInf
  | NInf, Fin b => if Rlt_dec b 0 then PInf else NInf
  | _, _ => NaN
  end.

(** [np.sqrt] *)
Definition np_sqrt (x : float64) : float64 :=
  match x with
  | Fin r => if Rlt_dec r 0 then NaN else Fin (sqrt r)
  | PInf => PInf
  | _ => NaN
  end.

(** [np.log]: defined on the positive doubles only; log(0) is -inf and the
    logarithm of a negative number is NaN. *)
Definition log (x : float64) : float64 :=
  match x with
  | Fin r =>
      if Rlt_dec 0 r then Fin (ln r)
      else if Req_dec_T r 0 then NInf
      else NaN
  | PInf => PInf
  | _ => NaN
  end.

(** Float comparison with a finite constant ([x == c], [x > c], [x < c]):
    every comparison with NaN is false. *)
Definition eqb_const (x : float64) (c : R) : bool :=
  match x with
  | Fin r => if Req_dec_T r c then true else false
  | _ => false
  end.

Definition gtb_const (x : float64) (c : R) : bool :=
  match x with
  | Fin r => if Rlt_dec c r then true else false
  | PInf => true
  | _ => false
  end.

Definition ltb_const (x : float64) (c : R) : bool :=
  match x with
  | Fin r => if Rlt_dec r c then true else false
  | NInf => true
  | _ => false
  end.

(** [np.sum] and [np.mean] of a one-dimensional array.  The mean of an empty
    array is 0/0, that is NaN. *)
Definition sum (l : list float64) : float64 := fold_right add (Fin 0) l.

Definition mean (l : list float64) : float64 :=
  div (sum l) (Fin (INR (length l))).

(** [np.arange(start, stop, step)] on integers: the half-open range with
    ceil((stop - start) / step) elements, for a non-zero step and bounds
    within the 64-bit integers. *)
Definition arange (start stop step : Z) : list Z :=
  map (fun i : nat => (start + Z.of_nat i * step)%Z)
      (seq 0 (Z.to_nat (- ((start - stop) / step)))).

(** An array of numbers of dimension zero, one or two; the two-dimensional
    one has shape (number of rows, [ncols]). *)
Inductive ndarray : Type :=
| Arr0 (v : R)
| Arr1 (v : list R)
| Arr2 (ncols : nat) (rows : list (list R)).

(** The column [c] of a list of rows. *)
Definition column (c : nat) (rows : list (list R)) : list R :=
  map (fun r : list R => nth c r 0) rows.

(** [a[start:, c]]: two indices on an array of fewer than two dimensions and
    a column index outside the shape raise IndexError; a row slice that
    starts past the end is empty and raises nothing. *)
Definition slice_from_col (start c : nat) (a : ndarray) : pyresult (list R) :=
  match a with
  | Arr0 _ | Arr1 _ => Raise IndexError
  | Arr2 k rows =>
      if (c <? k)%nat then Ok (column c (drop start rows))
      else Raise IndexError
  end.

(** [np.squeeze]: the axes of length one are dropped. *)
Definition squeeze (a : ndarray) : ndarray :=
  match a with
  | Arr0 v => Arr0 v
  | Arr1 v =>
      match v with
      | [x] => Arr0 x
      | _ => Arr1 v
      end
  | Arr2 k rows =>
      match rows with
      | [r] =>
          match r with
          | [x] => Arr0 x
          | _ => Arr1 r
          end
      | _ => if (k =? 1)%nat then Arr1 (column 0 rows) else Arr2 k rows
      end
  end.

(** [np.genfromtxt(path, skip_header=n)] on the contents of the file: [None]
    for a missing file (OSError), otherwise the number of columns and the
    rows of numbers after the skipped lines.  Rows of different lengths
    raise ValueError; a file without data rows gives an empty
    one-dimensional array; otherwise the rows are returned squeezed, so a
    single data row comes back as a one-dimensional array. *)
Definition genfromtxt (contents : option (nat * list (list R)))
  : pyresult ndarray :=
  match contents with
  | None => Raise OSError
  | Some (k, rows) =>
      if forallb (fun r : list R => (length r =? k)%nat) rows then
        match rows with
        | [] => Ok (Arr1 [])
        | _ => Ok (squeeze (Arr2 k rows))
        end
      else Raise ValueError
  end.

End NumPy.

(** ** unyt: pressures with a unit *)

Module Unyt.

Local Open Scope R_scope.

Inductive unit : Set := Pa | bar.

(** The size of a unit in pascals (1 bar = 100000 Pa). *)
Definition base_value (u : unit) : R :=
  match u with
  | Pa => 1
  | bar => 100000
  end.

(** [values * unit] *)
Record unyt_array : Type := mk_array { values : list R; units : unit }.

(** [a.in_units(u)] *)
Definition in_units (a : unyt_array) (u : unit) : unyt_array :=
  mk_array
    (map (fun v : R => v * (base_value (units a) / base_value u)) (values a))
    u.

(** [np.log(a)]: the logarithm of the stored numbers, returned as a plain
    array without a unit. *)
Definition log (a : unyt_array) : list NumPy.float64 :=
  map (fun v : R => NumPy.log (NumPy.Fin v)) (values a).

End Unyt.

(** ** SciPy: [scipy.stats.linregress] *)

Module SciPy.

Import NumPy.
Local Open Scope R_scope.

Record LinregressResult : Type := mk_fit {
  slope : float64;
  intercept : float64;
  rvalue : float64;
  pvalue : float64;
  stderr : float64
}.

(** Clamp of the correlation coefficient against rounding:
    [if r > 1.0: r = 1.0 elif r < -1.0: r = -1.0]. *)
Definition clamp_r (r : float64) : float64 :=
  if gtb_const r 1 then Fin 1
  else if ltb_const r (-1) then Fin (-1)
  else r.

Section Linregress.

(** The two-sided p-value of the slope's t-test and the standard error of
    the estimate, computed by SciPy from the data and the correlation
    coefficient through the Student distribution.  No property below depends
    on their values, so they are left as a parameter. *)
Variable significance : list float64 -> list float64 -> float64 -> float64 * float64.

(** Modelled from the spec: [linregress] is SciPy's routine, not code of the
    notebook; the spec names it an ordinary least-squares linear regression
    of y against x.  The model is SciPy's closed form: with the means and
    the biased covariance matrix of x and y ([np.cov(x, y, bias=1)]),
    slope = ssxym / ssxm and intercept = ymean - slope * xmean.  Empty inputs
    and inputs of different lengths raise ValueError (on empty inputs
    later releases return NaN instead).  When all x are equal the slope is
    0/0: NaN in the SciPy releases of the notebook's time (later ones raise
    ValueError), so no fit comes back either way. *)
Definition linregress (x y : list float64) : pyresult LinregressResult :=
  if (length x =? 0)%nat || (length y =? 0)%nat then Raise ValueError
  else if negb (length x =? length y)%nat then Raise ValueError
  else
    let xmean := mean x in
    let ymean := mean y in
    let dx := map (fun v => sub v xmean) x in
    let dy := map (fun v => sub v ymean) y in
    let ssxm := mean (zip_with mul dx dx) in
    let ssxym := mean (zip_with mul dx dy) in
    let ssym := mean (zip_with mul dy dy) in
    let r_num := ssxym in
    let r_den := np_sqrt (mul ssxm ssym) in
    let r := if eqb_const r_den 0 then Fin 0 else clamp_r (div r_num r_den) in
    let slope := div r_num ssxm in
    let intercept := sub ymean (mul slope xmean) in
    let sig := significance x y r in
    Ok (mk_fit slope intercept r (fst sig) (snd sig)).

End Linregress.

End SciPy.

(** ** The filesystem seen by [os.path.isdir] and [os.mkdir] *)

Module OS.

Inductive node : Set := Dir | File.

Abbreviation filesystem := (gmap string node).

(** [os.path.isdir(path)]: true only for an existing directory. *)
Definition isdir (fs : filesystem) (path : string) : bool :=
  match fs !! path with
  | Some Dir => true
  | _ => false
  end.

(** [os.mkdir(path)] for a name in the working directory: creates the
    directory, or raises FileExistsError when the name is taken.  The
    other failures of the call (permissions, a vanished working
    directory, links) are outside this map of names to directories and
    files. *)
Definition mkdir (fs : filesystem) (path : string) : pyresult filesystem :=
  match fs !! path with
  | Some _ => Raise FileExistsError
  | None => Ok (<[path := Dir]> fs)
  end.

End OS.

(** ** The notebook *)

Module Notebook.

Import NumPy.
Local Open Scope Z_scope.

(** *** What a call of [mc.run] is given *)

Inductive species : Set := Methane | Zeolite.

Inductive box : Type :=
| Box (lx ly lz : R)
| ZeoliteCompound.

Record system : Type := mk_system {
  box_list : list box;
  species_list : list species;
  mols_in_boxes : option (list (list Z))
}.

(** An entry of [chemical_potentials]: the string "none" or a number. *)
Inductive chempot : Type :=
| NoPotential
| Mu (v : float64).

Record custom_args : Type := mk_custom {
  charge_style : string;
  vdw_cutoff : R;
  prop_freq : Z;
  max_molecules : option (list Z);
  coord_freq : option Z
}.

Record run_call : Type := mk_run {
  run_cwd : string;
  run_system : system;
  run_moves : string * list species;
  run_type : string;
  run_length : Z;
  run_temperature : R;
  chemical_potentials : list chempot;
  run_custom : custom_args
}.

(** *** State: the working directory's entries, the [os.mkdir] calls made
    and the simulations launched.  The simulator writes inside the run
    directory, below the level of this map. *)

Record state : Type := mk_state {
  fs : OS.filesystem;
  mkdir_calls : list string;
  runs : list run_call
}.

Definition os_mkdir (dirname : string) (s : state) : pyresult state :=
  py_bind (OS.mkdir (fs s) dirname)
    (fun fs' => Ok (mk_state fs' (mkdir_calls s ++ [dirname]) (runs s))).

(** [if not os.path.isdir(dirname): os.mkdir(dirname) else: pass] *)
Definition ensure_dir (dirname : string) (s : state) : pyresult state :=
  if negb (OS.isdir (fs s) dirname) then os_mkdir dirname s
  else Ok s.

(** [with temporary_cd(dirname): mc.run(...)]: the call is recorded with
    its arguments; what the simulator does, and whether it fails, is
    outside the model. *)
Definition run_in (dirname : string) (call : run_call) (s : state)
  : pyresult state :=
  if OS.isdir (fs s) dirname
  then Ok (mk_state (fs s) (mkdir_calls s) (runs s ++ [call]))
  else Raise FileNotFoundError.

(** The body shared by the two simulation loops: the directory step, then
    the run inside the directory. *)
Definition iteration (dirname : string) (call : run_call) (s : state)
  : pyresult state :=
  py_bind (ensure_dir dirname s) (run_in dirname call).

(** *** Pure-fluid sweep *)

Definition temperature : R := 308.

Definition custom_args_pure : custom_args :=
  mk_custom "none" 14 10 (Some [20000]) None.

Definition mus_adsorbate : list Z := arange (-46) (-25) 3.

(** ['pure_mu_{:.0f}'.format(mu_adsorbate)] on an integer: the digits of
    the integer, which is what the format prints for magnitudes up to 2^53
    (it goes through a double). *)
Definition pure_dirname (mu_adsorbate : Z) : string :=
  "pure_mu_" +:+ pretty mu_adsorbate.

(** Box edge in nanometres. *)
Definition boxl (mu_adsorbate : Z) : R :=
  if mu_adsorbate <? -34 then 20%R else 5%R.

Definition pure_call (mu_adsorbate : Z) : run_call :=
  let l := boxl mu_adsorbate in
  mk_run (pure_dirname mu_adsorbate)
    (mk_system [Box l l l] [Methane] None)
    ("gcmc", [Methane])
    "equil" 100000 temperature
    [Mu (Fin (IZR mu_adsorbate))]
    custom_args_pure.

Definition pure_iteration (mu_adsorbate : Z) (s : state) : pyresult state :=
  let dirname := pure_dirname mu_adsorbate in
  py_bind (ensure_dir dirname s) (run_in dirname (pure_call mu_adsorbate)).

Definition pure_sweep : state -> pyresult state :=
  py_foldM pure_iteration mus_adsorbate.

(** *** Averages after the warm-up *)

(** The text tables on disk, by path: number of columns and data rows. *)
Abbreviation tables := (gmap string (nat * list (list R))).

Definition pressure_col : nat := 6.
Definition nmol_col : nat := 9.
Definition n_unitcells : R := 12.

(** [np.mean(thermo[3000:, pressure_col-1])] *)
Definition mean_pressure (thermo : ndarray) : pyresult float64 :=
  py_bind (slice_from_col 3000 (pressure_col - 1) thermo)
    (fun col => Ok (mean (map Fin col))).

(** [np.mean(thermo[3000:, nmol_col-1] / n_unitcells)] *)
Definition mean_loading (thermo : ndarray) : pyresult float64 :=
  py_bind (slice_from_col 3000 (nmol_col - 1) thermo)
    (fun col => Ok (mean (map (fun v : R => Fin (v / n_unitcells)%R) col))).

(** The analysis of one run: parse the table, average the pressure. *)
Definition run_pressure (files : tables) (mu_adsorbate : Z) : pyresult float64 :=
  py_bind (genfromtxt (files !! (pure_dirname mu_adsorbate +:+ "/gcmc.out.prp")))
    mean_pressure.

Definition pressures_of (files : tables) : pyresult (list float64) :=
  py_mapM (run_pressure files) mus_adsorbate.

(** *** Fit of mu against ln(P), and the production runs *)

Definition target_pascals : list Z :=
  [6000; 22100; 49180; 121800; 316800; 839700; 2243000; 6000000].

Definition pressures : Unyt.unyt_array :=
  Unyt.mk_array (map IZR target_pascals) Unyt.Pa.

(** [mus = slope * np.log(pressures.in_units(u.bar)) + intercept] *)
Definition mus (slope intercept : float64) (pressures : Unyt.unyt_array)
  : list float64 :=
  map (fun l => add (mul slope l) intercept)
      (Unyt.log (Unyt.in_units pressures Unyt.bar)).

Definition custom_args_zeo : custom_args :=
  mk_custom "none" 14 10 None (Some 500).

(** [f"zeo_press_{pressure.value:0.0f}"] on an integer number of pascals,
    of magnitude up to 2^53 as for [pure_dirname]. *)
Definition zeo_dirname (pascals : Z) : string :=
  "zeo_press_" +:+ pretty pascals.

Definition zeo_call (pascals : Z) (mu : float64) : run_call :=
  mk_run (zeo_dirname pascals)
    (mk_system [ZeoliteCompound] [Zeolite; Methane] (Some [[1; 0]]))
    ("gcmc", [Zeolite; Methane])
    "equil" 100000 temperature
    [NoPotential; Mu mu]
    custom_args_zeo.

Definition zeo_iteration (pm : Z * float64) (s : state) : pyresult state :=
  let dirname := zeo_dirname (fst pm) in
  py_bind (ensure_dir dirname s) (run_in dirname (zeo_call (fst pm) (snd pm))).

(** The analysis of one production run: parse the table, average the
    loading. *)
Definition run_loading (files : tables) (pascals : Z) : pyresult float64 :=
  py_bind (genfromtxt (files !! (zeo_dirname pascals +:+ "/gcmc.out.prp")))
    mean_loading.

(** The [loading] list of the last analysis cell. *)
Definition loading (files : tables) : pyresult (list float64) :=
  py_mapM (run_loading files) target_pascals.

Section Calibration.

Variable significance : list float64 -> list float64 -> float64 -> float64 * float64.

(** [linregress(np.log(pressures).flatten(), y=mus_adsorbate.flatten())],
    for any chemical potentials and mean pressures. *)
Definition calibrate (mus_adsorbate pressures : list float64)
  : pyresult SciPy.LinregressResult :=
  SciPy.linregress significance (map log pressures) mus_adsorbate.

(** The production cells: only [slope] and [intercept] of the five outputs
    are used. *)
Definition production (fit : SciPy.LinregressResult) (s : state)
  : pyresult state :=
  let slope := SciPy.slope fit in
  let intercept := SciPy.intercept fit in
  py_foldM zeo_iteration (zip target_pascals (mus slope intercept pressures)) s.

(** From the calibration tables to the end of the production loop. *)
Definition notebook (files : tables) (s : state)
  : pyresult state :=
  py_bind (pure_sweep s) (fun s1 =>
  py_bind (pressures_of files) (fun ps =>
  py_bind (calibrate (map (fun z => Fin (IZR z)) mus_adsorbate) ps) (fun fit =>
  production fit s1))).

End Calibration.

End Notebook.

(** ** Reference notions for the statements *)

Module Reference.

Local Open Scope R_scope.

Definition Rsum (l : list R) : R := fold_right Rplus 0 l.

(** Arithmetic mean of a non-empty list of reals. *)
Definition arith_mean (l : list R) : R := Rsum l / INR (length l).

(** Calibration data as points (x, y) = (ln P, mu).  Sum of squared errors
    of the line y = a x + b on the points: the quantity ordinary least
    squares minimises. *)
Definition sse (a b : R) (pts : list (R * R)) : R :=
  Rsum (map (fun p : R * R =>
               (snd p - (a * fst p + b)) * (snd p - (a * fst p + b))) pts).

Definition mean_x (pts : list (R * R)) : R := arith_mean (map fst pts).
Definition mean_y (pts : list (R * R)) : R := arith_mean (map snd pts).

(** Biased (divide by n) variance of x and covariance of x and y. *)
Definition cov_xx (pts : list (R * R)) : R :=
  arith_mean (map (fun p : R * R =>
                     (fst p - mean_x pts) * (fst p - mean_x pts)) pts).

Definition cov_xy (pts : list (R * R)) : R :=
  arith_mean (map (fun p : R * R =>
                     (fst p - mean_x pts) * (snd p - mean_y pts)) pts).

Definition cov_yy (pts : list (R * R)) : R :=
  arith_mean (map (fun p : R * R =>
                     (snd p - mean_y pts) * (snd p - mean_y pts)) pts).

(** Sum of a quantity over the points, and the least-squares line in closed
    form. *)
Definition moment (f : R * R -> R) (pts : list (R * R)) : R := Rsum (map f pts).

Definition ols_slope (pts : list (R * R)) : R := cov_xy pts / cov_xx pts.

Definition ols_intercept (pts : list (R * R)) : R :=
  mean_y pts - ols_slope pts * mean_x pts.

(** The calibration line solved for the pressure:
    P = exp((mu - intercept) / slope). *)
Definition pressure_of_mu (slope intercept mu : R) : R :=
  exp ((mu - intercept) / slope).

(** A list holds two different values. *)
Definition two_distinct (l : list R) : Prop :=
  exists a b : R, In a l /\ In b l /\ a <> b.

(** The precondition the spec gives for the fit, on runs (mu_i, P_i): at
    least two distinct mu values, every mean pressure strictly positive. *)
Definition calibration_precondition (data : list (R * R)) : Prop :=
  two_distinct (map fst data) /\ Forall (fun d : R * R => 0 < snd d) data.

(** The regression points (ln P_i, mu_i) of the runs (mu_i, P_i). *)
Definition points_of (data : list (R * R)) : list (R * R) :=
  map (fun d : R * R => (ln (snd d), fst d)) data.

End Reference.

(** ** Sample tables for the examples *)

Module Samples.

Import Notebook.
Local Open Scope R_scope.

(** A table of nine columns with two data rows. *)
Definition short_table : nat * list (list R) :=
  (9%nat, [[10; 0; 0; 0; 0; 2; 0; 0; 24]; [20; 0; 0; 0; 0; 4; 0; 0; 48]]).

(** A table of nine columns with 3000 warm-up rows and one later row, whose
    pressure is [p]. *)
Definition long_table (p : R) : nat * list (list R) :=
  (9%nat,
   replicate 3000 [0; 0; 0; 0; 0; 1000; 0; 0; 600]
   ++ [[30000; 0; 0; 0; 0; p; 0; 0; 24]]).

(** One table for each run of the sweep, at the path the analysis reads. *)
Definition calibration_files (table : Z -> nat * list (list R)) : tables :=
  list_to_map
    (map (fun mu : Z => ((pure_dirname mu +:+ "/gcmc.out.prp")%string, table mu))
         mus_adsorbate).

End Samples.

(** ** Lemmas on doubles *)

Section FloatLemmas.

Import NumPy Reference.
Local Open Scope R_scope.

Lemma sum_Fin (l : list R) : sum (map Fin l) = Fin (Rsum l).
Proof.
  induction l as [|a l IH]; [reflexivity|].
  change (sum (map Fin (a :: l))) with (add (Fin a) (sum (map Fin l))).
  rewrite IH. reflexivity.
Qed.

Lemma div_Fin (a b : R) : b <> 0 -> div (Fin a) (Fin b) = Fin (a / b).
Proof.
  intros Hb. unfold div. destruct (Req_dec_T b 0); [contradiction|reflexivity].
Qed.

Lemma INR_length_neq0 {A} (l : list A) : l <> [] -> INR (length l) <> 0.
Proof.
  destruct l as [|a l]; [congruence|]. intros _.
  apply not_0_INR. simpl. lia.
Qed.

Lemma mean_Fin (l : list R) :
  l <> [] -> mean (map Fin l) = Fin (arith_mean l).
Proof.
  intros Hl. unfold mean, arith_mean.
  rewrite sum_Fin, length_map. apply div_Fin, INR_length_neq0, Hl.
Qed.

Lemma mean_nil : mean [] = NaN.
Proof.
  unfold mean, div, scale_inf. simpl.
  destruct (Req_dec_T 0 0) as [_|H]; [|lra].
  destruct (Rlt_dec 0 0) as [H|_]; [lra|reflexivity].
Qed.

Lemma log_Fin_pos (p : R) : 0 < p -> log (Fin p) = Fin (ln p).
Proof.
  intros Hp. unfold log. destruct (Rlt_dec 0 p); [reflexivity|contradiction].
Qed.

Lemma log_Fin_nonpos (p : R) : ~ 0 < p -> isfinite (log (Fin p)) = false.
Proof.
  intros Hp. unfold log. destruct (Rlt_dec 0 p); [contradiction|].
  destruct (Req_dec_T p 0); reflexivity.
Qed.

End FloatLemmas.

(** ** The calibration sweep and the directory bookkeeping *)

Section Sweep.

Import NumPy Notebook.
Local Open Scope Z_scope.

Lemma boxl_low (mu : Z) : mu < -34 -> boxl mu = 20%R.
Proof.
  intros H. unfold boxl. destruct (Z.ltb_spec mu (-34)); [reflexivity|lia].
Qed.

Lemma boxl_high (mu : Z) : -34 <= mu -> boxl mu = 5%R.
Proof.
  intros H. unfold boxl. destruct (Z.ltb_spec mu (-34)); [lia|reflexivity].
Qed.

(** C9: the sweep is the half-open range -46, -43, ..., -28 (seven values,
    -25 is not among them); the box edge is 20 nm for mu < -34 and 5 nm
    from -34 on, so -34 itself gets 5 nm; started in an empty directory the
    loop launches exactly these seven runs, each at its own chemical
    potential in a cubic box of that edge. *)
Theorem calibration_sweep_values_and_boxes :
  mus_adsorbate = [-46; -43; -40; -37; -34; -31; -28] /\
  length mus_adsorbate = 7%nat /\
  ~ In (-25) mus_adsorbate /\
  (forall mu : Z,
      (mu < -34 -> boxl mu = 20%R) /\ (-34 <= mu -> boxl mu = 5%R)) /\
  boxl (-34) = 5%R /\
  map boxl mus_adsorbate = [20; 20; 20; 20; 5; 5; 5]%R /\
  (exists s' : state,
      pure_sweep (mk_state ∅ [] []) = Ok s' /\
      runs s' = map pure_call [-46; -43; -40; -37; -34; -31; -28]) /\
  (forall mu : Z,
      chemical_potentials (pure_call mu) = [Mu (Fin (IZR mu))] /\
      box_list (run_system (pure_call mu))
      = [Box (boxl mu) (boxl mu) (boxl mu)]).
Proof.
  split; [reflexivity|].
  split; [reflexivity|].
  split.
  { intros Hin. vm_compute in Hin. intuition discriminate. }
  split; [intros mu; split; [apply boxl_low|apply boxl_high]|].
  split; [reflexivity|].
  split; [reflexivity|].
  split.
  - eexists. split; vm_compute; reflexivity.
  - intros mu. split; reflexivity.
Qed.

Lemma isdir_lookup (files : gmap string OS.node) (d : string) :
  OS.isdir files d = true <-> files !! d = Some OS.Dir.
Proof.
  unfold OS.isdir. destruct (files !! d) as [[|]|]; split; congruence.
Qed.

Lemma ensure_dir_present (d : string) (s : state) :
  OS.isdir (fs s) d = true -> ensure_dir d s = Ok s.
Proof. intros H. unfold ensure_dir. rewrite H. reflexivity. Qed.

Lemma ensure_dir_absent (d : string) (s : state) :
  fs s !! d = None ->
  ensure_dir d s
  = Ok (mk_state (<[d := OS.Dir]> (fs s)) (mkdir_calls s ++ [d]) (runs s)).
Proof.
  intros H. unfold ensure_dir, os_mkdir, OS.isdir, OS.mkdir.
  rewrite H. reflexivity.
Qed.

Lemma run_in_present (d : string) (c : run_call) (s : state) :
  OS.isdir (fs s) d = true ->
  run_in d c s = Ok (mk_state (fs s) (mkdir_calls s) (runs s ++ [c])).
Proof. intros H. unfold run_in. rewrite H. reflexivity. Qed.

Lemma pure_iteration_eq (mu : Z) (s : state) :
  pure_iteration mu s = iteration (pure_dirname mu) (pure_call mu) s.
Proof. reflexivity. Qed.

Lemma zeo_iteration_eq (pm : Z * float64) (s : state) :
  zeo_iteration pm s
  = iteration (zeo_dirname (fst pm)) (zeo_call (fst pm) (snd pm)) s.
Proof. reflexivity. Qed.

Lemma iteration_present (d : string) (c : run_call) (s : state) :
  OS.isdir (fs s) d = true ->
  iteration d c s = Ok (mk_state (fs s) (mkdir_calls s) (runs s ++ [c])).
Proof.
  intros H. unfold iteration. rewrite (ensure_dir_present _ _ H). simpl.
  apply run_in_present, H.
Qed.

Lemma iteration_absent (d : string) (c : run_call) (s : state) :
  fs s !! d = None ->
  iteration d c s
  = Ok (mk_state (<[d := OS.Dir]> (fs s)) (mkdir_calls s ++ [d]) (runs s ++ [c])).
Proof.
  intros H. unfold iteration. rewrite (ensure_dir_absent _ _ H). simpl.
  unfold run_in, OS.isdir. simpl. rewrite lookup_insert_eq. reflexivity.
Qed.

(** A regular file that has the directory's name is neither case:
    [os.path.isdir] is false and [os.mkdir] raises. *)
Lemma ensure_dir_name_taken_by_file (d : string) (s : state) :
  fs s !! d = Some OS.File -> ensure_dir d s = Raise FileExistsError.
Proof.
  intros H. unfold ensure_dir, os_mkdir, OS.isdir, OS.mkdir.
  rewrite H. reflexivity.
Qed.

(** C7, the part that fails: with a regular file on the run's name there
    is no directory of that name, [os.path.isdir] is false, and the
    directory step does not create it: [os.mkdir] is called and raises
    FileExistsError, in the sweep and in the production loop. *)
Lemma directory_step_raises_on_regular_file :
  OS.isdir ({["pure_mu_-46" := OS.File]} : gmap string OS.node) "pure_mu_-46"
  = false /\
  ensure_dir "pure_mu_-46" (mk_state {["pure_mu_-46" := OS.File]} [] [])
  = Raise FileExistsError /\
  pure_iteration (-46) (mk_state {["pure_mu_-46" := OS.File]} [] [])
  = Raise FileExistsError /\
  zeo_iteration (6000, Fin (-40))
    (mk_state {["zeo_press_6000" := OS.File]} [] [])
  = Raise FileExistsError.
Proof.
  split; [vm_compute; reflexivity|]. split; [|split].
  - apply ensure_dir_name_taken_by_file. vm_compute. reflexivity.
  - unfold pure_iteration. cbv zeta.
    rewrite ensure_dir_name_taken_by_file by (vm_compute; reflexivity).
    reflexivity.
  - unfold zeo_iteration. cbv zeta.
    rewrite ensure_dir_name_taken_by_file by (vm_compute; reflexivity).
    reflexivity.
Qed.

(** C7, as amended: in both loops, when a directory of the run's name
    already exists the directory step returns the state as it is (no
    [os.mkdir] call, no exception, same filesystem) and the iteration only
    launches the run; when nothing has that name, the directory is
    created, by one [os.mkdir] call, and every other entry is kept; when
    the name is taken by a regular file, [os.mkdir] is called and raises
    FileExistsError. *)
Theorem directory_creation_noop_when_present (s : state) :
  (forall d : string,
      OS.isdir (fs s) d = true -> ensure_dir d s = Ok s) /\
  (forall d : string,
      fs s !! d = None ->
      exists s' : state,
        ensure_dir d s = Ok s' /\
        OS.isdir (fs s') d = true /\
        mkdir_calls s' = mkdir_calls s ++ [d] /\
        runs s' = runs s /\
        forall d' : string, d' <> d -> fs s' !! d' = fs s !! d') /\
  (forall mu : Z,
      OS.isdir (fs s) (pure_dirname mu) = true ->
      pure_iteration mu s
      = Ok (mk_state (fs s) (mkdir_calls s) (runs s ++ [pure_call mu]))) /\
  (forall (pascals : Z) (mu : float64),
      OS.isdir (fs s) (zeo_dirname pascals) = true ->
      zeo_iteration (pascals, mu) s
      = Ok (mk_state (fs s) (mkdir_calls s) (runs s ++ [zeo_call pascals mu]))) /\
  (forall mu : Z,
      fs s !! pure_dirname mu = None ->
      pure_iteration mu s
      = Ok (mk_state (<[pure_dirname mu := OS.Dir]> (fs s))
              (mkdir_calls s ++ [pure_dirname mu])
              (runs s ++ [pure_call mu]))) /\
  (forall (pascals : Z) (mu : float64),
      fs s !! zeo_dirname pascals = None ->
      zeo_iteration (pascals, mu) s
      = Ok (mk_state (<[zeo_dirname pascals := OS.Dir]> (fs s))
              (mkdir_calls s ++ [zeo_dirname pascals])
              (runs s ++ [zeo_call pascals mu]))) /\
  (forall d : string,
      fs s !! d = Some OS.File ->
      OS.isdir (fs s) d = false /\ ensure_dir d s = Raise FileExistsError) /\
  (forall mu : Z,
      fs s !! pure_dirname mu = Some OS.File ->
      pure_iteration mu s = Raise FileExistsError) /\
  (forall (pascals : Z) (mu : float64),
      fs s !! zeo_dirname pascals = Some OS.File ->
      zeo_iteration (pascals, mu) s = Raise FileExistsError).
Proof.
  split; [intros d; apply ensure_dir_present|].
  split.
  { intros d H. eexists. split; [apply ensure_dir_absent, H|]. simpl.
    split; [apply isdir_lookup, lookup_insert_eq|].
    split; [reflexivity|]. split; [reflexivity|].
    intros d' Hne. apply lookup_insert_ne. congruence. }
  split; [intros mu H; rewrite pure_iteration_eq; apply iteration_present, H|].
  split; [intros p mu H; rewrite zeo_iteration_eq; apply (iteration_present _ _ _ H)|].
  split; [intros mu H; rewrite pure_iteration_eq; apply iteration_absent, H|].
  split; [intros p mu H; rewrite zeo_iteration_eq; apply (iteration_absent _ _ _ H)|].
  assert (Hraise : forall (d : string) (c : run_call),
             fs s !! d = Some OS.File -> iteration d c s = Raise FileExistsError).
  { intros d c H. unfold iteration.
    rewrite (ensure_dir_name_taken_by_file _ _ H). reflexivity. }
  split.
  { intros d H. split; [|apply ensure_dir_name_taken_by_file, H].
    unfold OS.isdir. rewrite H. reflexivity. }
  split; [intros mu H; rewrite pure_iteration_eq; apply Hraise, H|].
  intros p mu H. rewrite zeo_iteration_eq. apply (Hraise _ _ H).
Qed.

Lemma directory_creation_noop_when_present_witness :
  ensure_dir "pure_mu_-46"
    (mk_state {["pure_mu_-46" := OS.Dir]} ["pure_mu_-46"] [])
  = Ok (mk_state {["pure_mu_-46" := OS.Dir]} ["pure_mu_-46"] [])
  /\ zeo_iteration (6000, Fin (-40)) (mk_state ∅ [] [])
     = Ok (mk_state (<["zeo_press_6000" := OS.Dir]> ∅)
             ["zeo_press_6000"] [zeo_call 6000 (Fin (-40))]).
Proof.
  split.
  - apply (proj1 (directory_creation_noop_when_present
                    (mk_state {["pure_mu_-46" := OS.Dir]} ["pure_mu_-46"] []))).
    apply isdir_lookup, lookup_singleton_eq.
  - apply (proj1 (proj2 (proj2 (proj2 (proj2 (proj2
             (directory_creation_noop_when_present (mk_state ∅ [] [])))))))
             6000%Z (Fin (-40))).
    apply lookup_empty.
Defined.

End Sweep.

(** ** Averages after the warm-up *)

Section Averages.

Import NumPy Notebook Reference.
Local Open Scope R_scope.

Lemma slice_from_col_ok (start c k : nat) (rows : list (list R)) :
  (c < k)%nat ->
  slice_from_col start c (Arr2 k rows) = Ok (column c (drop start rows)).
Proof.
  intros H. unfold slice_from_col.
  destruct (Nat.ltb_spec c k); [reflexivity|lia].
Qed.

Lemma drop_warmup {A} (n : nat) (warmup rest : list A) :
  length warmup = n -> drop n (warmup ++ rest) = rest.
Proof. intros <-. apply drop_app_length. Qed.

Lemma column_nil_inv (c : nat) (rows : list (list R)) :
  column c rows = [] -> rows = [].
Proof. destruct rows; [reflexivity|discriminate]. Qed.

Lemma Rsum_scale (d : R) (l : list R) :
  Rsum (map (fun v => v / d) l) = Rsum l / d.
Proof.
  induction l as [|a l IH]; [simpl; lra|].
  change (Rsum (map (fun v => v / d) (a :: l)))
    with (a / d + Rsum (map (fun v => v / d) l)).
  change (Rsum (a :: l)) with (a + Rsum l).
  rewrite IH. lra.
Qed.

Lemma rectangular_forallb (k : nat) (rows : list (list R)) :
  Forall (fun r => length r = k) rows ->
  forallb (fun r : list R => (length r =? k)%nat) rows = true.
Proof.
  induction 1 as [|r rows Hr _ IH]; [reflexivity|].
  simpl. rewrite IH, Hr, Nat.eqb_refl. reflexivity.
Qed.

(** A rectangular file with two data rows or more and two columns or more
    is parsed to the two-dimensional array of its rows. *)
Lemma genfromtxt_table (k : nat) (rows : list (list R)) :
  Forall (fun r => length r = k) rows ->
  (2 <= length rows)%nat ->
  (2 <= k)%nat ->
  genfromtxt (Some (k, rows)) = Ok (Arr2 k rows).
Proof.
  intros Hrect Hn Hk. unfold genfromtxt.
  rewrite (rectangular_forallb _ _ Hrect).
  destruct rows as [|r1 [|r2 rows]]; simpl in Hn; try lia.
  unfold squeeze. destruct (Nat.eqb_spec k 1); [lia|reflexivity].
Qed.

Lemma mean_pressure_rows (k : nat) (rows : list (list R)) :
  (pressure_col <= k)%nat ->
  mean_pressure (Arr2 k rows)
  = Ok (mean (map Fin (column 5 (drop 3000 rows)))).
Proof.
  intros Hk. unfold mean_pressure.
  rewrite slice_from_col_ok by (unfold pressure_col in *; lia).
  reflexivity.
Qed.

Lemma mean_loading_rows (k : nat) (rows : list (list R)) :
  (nmol_col <= k)%nat ->
  mean_loading (Arr2 k rows)
  = Ok (mean (map Fin (map (fun v => v / 12) (column 8 (drop 3000 rows))))).
Proof.
  intros Hk. unfold mean_loading.
  rewrite slice_from_col_ok by (unfold nmol_col in *; lia).
  simpl py_bind. rewrite List.map_map. reflexivity.
Qed.

(** C5, the part that fails: the mean loading reported is not the mean of
    the molecule-count column but that mean divided by the 12 unit cells
    (3, where the column's mean is 36); a table of exactly 3000 rows has no
    row left to average and gives NaN; a table without the averaged column
    raises IndexError. *)
Lemma mean_loading_is_per_unit_cell :
  py_bind
    (genfromtxt
       (Some (9%nat,
              replicate 3000 [0; 0; 0; 0; 0; 1000; 0; 0; 600]
              ++ [[30000; 0; 0; 0; 0; 2; 0; 0; 36]])))
    mean_loading = Ok (Fin 3) /\
  arith_mean (column 8 [[30000; 0; 0; 0; 0; 2; 0; 0; 36]]) = 36 /\
  py_bind
    (genfromtxt (Some (9%nat, replicate 3000 [0; 0; 0; 0; 0; 1000; 0; 0; 600])))
    mean_pressure = Ok NaN /\
  py_bind
    (genfromtxt (Some (5%nat, [[10; 0; 0; 0; 0]; [20; 0; 0; 0; 0]])))
    mean_pressure = Raise IndexError.
Proof.
  assert (Hrow : Forall (fun r : list R => length r = 9%nat)
                   (replicate 3000 [0; 0; 0; 0; 0; 1000; 0; 0; 600]))
    by (apply Forall_replicate; reflexivity).
  split; [|split; [|split]].
  - rewrite genfromtxt_table.
    + cbn [py_bind]. rewrite mean_loading_rows by (unfold nmol_col; lia).
      rewrite drop_warmup by apply length_replicate.
      rewrite mean_Fin by discriminate. do 2 f_equal.
      unfold arith_mean, Rsum. simpl. field.
    + apply Forall_app. split; [exact Hrow|]. repeat constructor.
    + rewrite length_app, length_replicate. simpl. lia.
    + lia.
  - unfold arith_mean, Rsum. simpl. field.
  - rewrite genfromtxt_table; [|exact Hrow|rewrite length_replicate; lia|lia].
    cbn [py_bind]. rewrite mean_pressure_rows by (unfold pressure_col; lia).
    rewrite drop_ge by (rewrite length_replicate; lia).
    f_equal. apply mean_nil.
  - reflexivity.
Qed.

(** C5, as amended: for a table of [k] columns whose first 3000 data rows
    are [warmup] and whose later rows are [rest] (at least one), the mean
    pressure (six columns or more) is the arithmetic mean of column 6 over
    [rest], and the mean loading (nine columns or more) is the arithmetic
    mean of column 9 over [rest] divided by the 12 unit cells; the warm-up
    rows do not enter either value: any other 3000 rows in their place
    give the same result.  For a table of two rows or more, whatever its
    length, the value is NumPy's mean over the rows from index 3000 on. *)
Theorem mean_ignores_warmup (k : nat) (warmup rest : list (list R)) :
  Forall (fun r => length r = k) (warmup ++ rest) ->
  length warmup = 3000%nat ->
  rest <> [] ->
  ((pressure_col <= k)%nat ->
   py_bind (genfromtxt (Some (k, warmup ++ rest))) mean_pressure
   = Ok (Fin (arith_mean (column 5 rest)))) /\
  ((nmol_col <= k)%nat ->
   py_bind (genfromtxt (Some (k, warmup ++ rest))) mean_loading
   = Ok (Fin (arith_mean (map (fun v => v / 12) (column 8 rest)))) /\
   arith_mean (map (fun v => v / 12) (column 8 rest))
   = arith_mean (column 8 rest) / 12) /\
  (forall warmup' : list (list R),
      Forall (fun r => length r = k) warmup' ->
      length warmup' = 3000%nat ->
      (2 <= k)%nat ->
      py_bind (genfromtxt (Some (k, warmup' ++ rest))) mean_pressure
      = py_bind (genfromtxt (Some (k, warmup ++ rest))) mean_pressure /\
      py_bind (genfromtxt (Some (k, warmup' ++ rest))) mean_loading
      = py_bind (genfromtxt (Some (k, warmup ++ rest))) mean_loading) /\
  (forall rows : list (list R),
      Forall (fun r => length r = k) rows ->
      (2 <= length rows)%nat ->
      ((pressure_col <= k)%nat ->
       py_bind (genfromtxt (Some (k, rows))) mean_pressure
       = Ok (mean (map Fin (column 5 (drop 3000 rows))))) /\
      ((nmol_col <= k)%nat ->
       py_bind (genfromtxt (Some (k, rows))) mean_loading
       = Ok (mean (map Fin (map (fun v => v / 12)
                              (column 8 (drop 3000 rows))))))).
Proof.
  intros Hrect Hw Hrest.
  assert (Hcol : forall c, column c rest <> []).
  { intros c Hc. apply Hrest, (column_nil_inv c), Hc. }
  assert (Hlen : (2 <= length (warmup ++ rest))%nat)
    by (rewrite length_app, Hw; lia).
  assert (Hparse : (2 <= k)%nat ->
                   genfromtxt (Some (k, warmup ++ rest))
                   = Ok (Arr2 k (warmup ++ rest)))
    by (intros Hk; apply genfromtxt_table; assumption).
  split; [|split; [|split]].
  - intros Hk. rewrite Hparse by (unfold pressure_col in Hk; lia).
    cbn [py_bind]. rewrite (mean_pressure_rows _ _ Hk), (drop_warmup _ _ _ Hw).
    rewrite mean_Fin by apply Hcol. reflexivity.
  - intros Hk. rewrite Hparse by (unfold nmol_col in Hk; lia).
    cbn [py_bind]. rewrite (mean_loading_rows _ _ Hk), (drop_warmup _ _ _ Hw).
    split.
    + rewrite mean_Fin; [reflexivity|].
      intros Hc. apply (Hcol 8%nat).
      destruct (column 8 rest); [reflexivity|discriminate].
    + unfold arith_mean. rewrite Rsum_scale, length_map.
      pose proof (INR_length_neq0 _ (Hcol 8%nat)) as Hn.
      field. exact Hn.
  - intros warmup' Hrect' Hw' Hk.
    rewrite (Hparse Hk), genfromtxt_table; [| |rewrite length_app, Hw'; lia|exact Hk].
    + cbn [py_bind]. unfold mean_pressure, mean_loading, slice_from_col.
      rewrite (drop_warmup _ _ _ Hw), (drop_warmup _ _ _ Hw').
      split; reflexivity.
    + apply Forall_app. split; [exact Hrect'|].
      apply Forall_app in Hrect. apply Hrect.
  - intros rows Hrows Hn. split; intros Hk.
    + rewrite genfromtxt_table by (unfold pressure_col in Hk; first [assumption|lia]).
      apply mean_pressure_rows, Hk.
    + rewrite genfromtxt_table by (unfold nmol_col in Hk; first [assumption|lia]).
      apply mean_loading_rows, Hk.
Qed.

Lemma mean_ignores_warmup_witness :
  py_bind
    (genfromtxt
       (Some (9%nat,
              replicate 3000 [0; 0; 0; 0; 0; 1000; 0; 0; 600]
              ++ [[30000; 0; 0; 0; 0; 2; 0; 0; 24];
                  [30010; 0; 0; 0; 0; 4; 0; 0; 48]])))
    mean_pressure
  = Ok (Fin (arith_mean [2; 4]))
  /\ py_bind
       (genfromtxt
          (Some (9%nat,
                 replicate 3000 [0; 0; 0; 0; 0; 1000; 0; 0; 600]
                 ++ [[30000; 0; 0; 0; 0; 2; 0; 0; 24];
                     [30010; 0; 0; 0; 0; 4; 0; 0; 48]])))
       mean_loading
     = Ok (Fin (arith_mean [24 / 12; 48 / 12])).
Proof.
  destruct (mean_ignores_warmup 9
              (replicate 3000 [0; 0; 0; 0; 0; 1000; 0; 0; 600])
              [[30000; 0; 0; 0; 0; 2; 0; 0; 24];
               [30010; 0; 0; 0; 0; 4; 0; 0; 48]])
    as (Hp & Hl & _).
  - apply Forall_app. split; [apply Forall_replicate; reflexivity|].
    repeat constructor.
  - apply length_replicate.
  - discriminate.
  - split.
    + apply Hp. unfold pressure_col. lia.
    + apply Hl. unfold nmol_col. lia.
Defined.

(** C10, the part that fails: a table with a single data row is parsed to
    a one-dimensional array, and taking the slice raises IndexError
    instead of giving NaN; so does a table with no data row; and a table
    of two rows that lacks the averaged column raises IndexError too. *)
Lemma one_row_table_raises :
  py_bind (genfromtxt (Some (9%nat, [[10; 0; 0; 0; 0; 2; 0; 0; 24]])))
    mean_pressure = Raise IndexError /\
  py_bind (genfromtxt (Some (9%nat, [[10; 0; 0; 0; 0; 2; 0; 0; 24]])))
    mean_loading = Raise IndexError /\
  py_bind (genfromtxt (Some (9%nat, []))) mean_pressure = Raise IndexError /\
  py_bind (genfromtxt (Some (5%nat, [[10; 0; 0; 0; 0]; [20; 0; 0; 0; 0]])))
    mean_pressure = Raise IndexError /\
  py_bind
    (genfromtxt
       (Some (8%nat, [[10; 0; 0; 0; 0; 2; 0; 0]; [20; 0; 0; 0; 0; 4; 0; 0]])))
    mean_loading = Raise IndexError.
Proof. repeat split; reflexivity. Qed.

(** C10, as amended: a table with at least two and at most 3000 data rows
    that has the averaged column (six columns or more for the pressure,
    nine or more for the loading) leaves nothing after the warm-up: the
    slice is empty, no exception is raised, and the mean returned is NaN,
    for the pressure and for the loading. *)
Theorem short_table_mean_is_nan (k : nat) (rows : list (list R)) :
  Forall (fun r => length r = k) rows ->
  (2 <= length rows <= 3000)%nat ->
  ((pressure_col <= k)%nat ->
   py_bind (genfromtxt (Some (k, rows)))
     (slice_from_col 3000 (pressure_col - 1)) = Ok [] /\
   py_bind (genfromtxt (Some (k, rows))) mean_pressure = Ok NaN) /\
  ((nmol_col <= k)%nat ->
   py_bind (genfromtxt (Some (k, rows)))
     (slice_from_col 3000 (nmol_col - 1)) = Ok [] /\
   py_bind (genfromtxt (Some (k, rows))) mean_loading = Ok NaN) /\
  isfinite NaN = false.
Proof.
  intros Hrect [Hlo Hhi].
  assert (Hdrop : drop 3000 rows = []) by (apply drop_ge; exact Hhi).
  split; [|split; [|reflexivity]].
  - intros Hk. rewrite genfromtxt_table by (unfold pressure_col in Hk; first [assumption|lia]).
    cbn [py_bind]. rewrite (mean_pressure_rows _ _ Hk).
    rewrite slice_from_col_ok by (unfold pressure_col in *; lia).
    rewrite Hdrop. split; [reflexivity|]. f_equal. apply mean_nil.
  - intros Hk. rewrite genfromtxt_table by (unfold nmol_col in Hk; first [assumption|lia]).
    cbn [py_bind]. rewrite (mean_loading_rows _ _ Hk).
    rewrite slice_from_col_ok by (unfold nmol_col in *; lia).
    rewrite Hdrop. split; [reflexivity|]. f_equal. apply mean_nil.
Qed.

Lemma short_table_mean_is_nan_witness :
  py_bind
    (genfromtxt (Some (9%nat, replicate 3000 [0; 0; 0; 0; 0; 1000; 0; 0; 600])))
    mean_pressure = Ok NaN
  /\ py_bind
       (genfromtxt (Some (9%nat, replicate 3000 [0; 0; 0; 0; 0; 1000; 0; 0; 600])))
       mean_loading = Ok NaN.
Proof.
  destruct (short_table_mean_is_nan 9
              (replicate 3000 [0; 0; 0; 0; 0; 1000; 0; 0; 600]))
    as (Hp & Hl & _).
  - apply Forall_replicate. reflexivity.
  - rewrite length_replicate. lia.
  - split.
    + apply Hp. unfold pressure_col. lia.
    + apply Hl. unfold nmol_col. lia.
Defined.

End Averages.

(** ** From the fit to the production runs *)

Section Production.

Import NumPy Notebook Reference.
Local Open Scope R_scope.

Lemma in_units_Pa_bar (ps : list R) :
  Unyt.in_units (Unyt.mk_array ps Unyt.Pa) Unyt.bar
  = Unyt.mk_array (map (fun P => P / 100000) ps) Unyt.bar.
Proof.
  unfold Unyt.in_units. simpl. f_equal.
  apply map_ext. intros P. lra.
Qed.

Lemma in_units_bar_bar (ps : list R) :
  Unyt.in_units (Unyt.mk_array ps Unyt.bar) Unyt.bar
  = Unyt.mk_array ps Unyt.bar.
Proof.
  unfold Unyt.in_units. simpl. f_equal.
  rewrite <- (map_id ps) at 2. apply map_ext. intros P. field.
Qed.

Lemma mus_of_bar (slope intercept : R) (ps : list R) :
  Forall (fun P => 0 < P) ps ->
  map (fun l => add (mul (Fin slope) l) (Fin intercept))
      (Unyt.log (Unyt.mk_array ps Unyt.bar))
  = map (fun P => Fin (slope * ln P + intercept)) ps.
Proof.
  intros Hpos. unfold Unyt.log. simpl Unyt.values. rewrite map_map.
  apply map_ext_Forall. eapply Forall_impl; [exact Hpos|].
  intros P HP. cbv beta in *. rewrite (log_Fin_pos _ HP). reflexivity.
Qed.

Lemma mus_Pa (slope intercept : R) (ps : list R) :
  Forall (fun P => 0 < P) ps ->
  mus (Fin slope) (Fin intercept) (Unyt.mk_array ps Unyt.Pa)
  = map (fun P => Fin (slope * ln (P / 100000) + intercept)) ps.
Proof.
  intros Hpos. unfold mus. rewrite in_units_Pa_bar, mus_of_bar.
  - rewrite List.map_map. reflexivity.
  - apply Forall_map. eapply Forall_impl; [exact Hpos|].
    intros P HP. cbv beta in *. lra.
Qed.

Lemma mus_bar (slope intercept : R) (ps : list R) :
  Forall (fun P => 0 < P) ps ->
  mus (Fin slope) (Fin intercept) (Unyt.mk_array ps Unyt.bar)
  = map (fun P => Fin (slope * ln P + intercept)) ps.
Proof.
  intros Hpos. unfold mus. rewrite in_units_bar_bar. apply mus_of_bar, Hpos.
Qed.

Lemma target_pascals_pos : Forall (fun P => 0 < P) (map IZR target_pascals).
Proof.
  unfold target_pascals. simpl. repeat constructor; lra.
Qed.

(** An iteration succeeds unless its directory name is taken by a file; it
    adds one run and never turns a name into a file. *)
Lemma iteration_succeeds (d : string) (c : run_call) (s : state) :
  fs s !! d <> Some OS.File ->
  exists s' : state,
    iteration d c s = Ok s' /\
    runs s' = runs s ++ [c] /\
    forall d' : string, fs s !! d' <> Some OS.File -> fs s' !! d' <> Some OS.File.
Proof.
  intros Hd. destruct (fs s !! d) as [[|]|] eqn:E; [|congruence|].
  - eexists. split; [apply iteration_present, isdir_lookup, E|].
    simpl. split; [reflexivity|tauto].
  - eexists. split; [apply iteration_absent, E|].
    simpl. split; [reflexivity|].
    intros d' Hd'. destruct (decide (d' = d)) as [->|Hne].
    + rewrite lookup_insert_eq. discriminate.
    + rewrite lookup_insert_ne by congruence. exact Hd'.
Qed.

Lemma loop_succeeds {A} (dn : A -> string) (cl : A -> run_call) (l : list A) :
  forall s : state,
    Forall (fun a => fs s !! dn a <> Some OS.File) l ->
    exists s' : state,
      py_foldM (fun a => iteration (dn a) (cl a)) l s = Ok s' /\
      runs s' = runs s ++ map cl l.
Proof.
  induction l as [|a l IH]; intros s Hl.
  - exists s. split; [reflexivity|]. simpl. rewrite app_nil_r. reflexivity.
  - inversion Hl as [|? ? Ha Hl']; subst.
    destruct (iteration_succeeds (dn a) (cl a) s Ha) as (s1 & E1 & R1 & K1).
    destruct (IH s1) as (s2 & E2 & R2).
    { eapply Forall_impl; [exact Hl'|]. intros b Hb. apply K1, Hb. }
    exists s2. split.
    + simpl. rewrite E1. simpl. exact E2.
    + rewrite R2, R1, <- app_assoc. reflexivity.
Qed.

Lemma map_zip_calls {A B C} (f : A -> B -> C) (l : list A) (k : list B) :
  map (fun p : A * B => f (fst p) (snd p)) (zip l k) = zip_with f l k.
Proof.
  revert k. induction l as [|a l IH]; intros [|b k]; simpl; try reflexivity.
  f_equal. apply IH.
Qed.

Lemma production_runs (fit : SciPy.LinregressResult) (s : state) :
  Forall (fun P => fs s !! zeo_dirname P <> Some OS.File) target_pascals ->
  exists s' : state,
    production fit s = Ok s' /\
    runs s'
    = runs s
      ++ zip_with zeo_call target_pascals
           (mus (SciPy.slope fit) (SciPy.intercept fit) pressures).
Proof.
  intros Hfs. unfold production.
  set (ms := mus (SciPy.slope fit) (SciPy.intercept fit) pressures).
  destruct (loop_succeeds (fun pm : Z * float64 => zeo_dirname (fst pm))
              (fun pm => zeo_call (fst pm) (snd pm))
              (zip target_pascals ms) s) as (s' & E & Rn).
  - clearbody ms. revert ms. induction Hfs as [|P l HP Hl IH]; intros ms.
    + constructor.
    + destruct ms as [|m ms]; [constructor|].
      constructor; [exact HP|apply IH].
  - exists s'. split; [exact E|]. rewrite Rn. clearbody ms.
    rewrite map_zip_calls. reflexivity.
Qed.

Lemma zip_with_map_same {A B C} (f : A -> B -> C) (g : A -> B) (l : list A) :
  zip_with f l (map g l) = map (fun a => f a (g a)) l.
Proof.
  induction l as [|a l IH]; simpl; [reflexivity|]. f_equal. apply IH.
Qed.

Lemma mus_any (slope intercept : float64) (ps : list R) :
  mus slope intercept (Unyt.mk_array ps Unyt.Pa)
  = map (fun P => add (mul slope (log (Fin (P / 100000)))) intercept) ps.
Proof.
  unfold mus. rewrite in_units_Pa_bar. unfold Unyt.log. simpl Unyt.values.
  rewrite !List.map_map. reflexivity.
Qed.

(** C2: a target pressure given in pascals is first expressed in bar
    (divided by 100000), and the chemical potential is
    slope * ln(P in bar) + intercept: in double arithmetic for every P, as
    the real number slope * ln(P / 100000) + intercept for a positive P and
    finite slope and intercept; the production loop hands exactly these
    values to the simulator for the notebook's eight target pressures. *)
Theorem production_mu_is_line_at_bar_pressure :
  (forall ps : list R,
      Unyt.in_units (Unyt.mk_array ps Unyt.Pa) Unyt.bar
      = Unyt.mk_array (map (fun P => P / 100000) ps) Unyt.bar) /\
  (forall (slope intercept : float64) (ps : list R),
      mus slope intercept (Unyt.mk_array ps Unyt.Pa)
      = map (fun P => add (mul slope (log (Fin (P / 100000)))) intercept) ps) /\
  (forall (slope intercept : R) (ps : list R),
      Forall (fun P => 0 < P) ps ->
      mus (Fin slope) (Fin intercept) (Unyt.mk_array ps Unyt.Pa)
      = map (fun P => Fin (slope * ln (P / 100000) + intercept)) ps) /\
  (forall (slope intercept : R) (fit : SciPy.LinregressResult) (s : state),
      SciPy.slope fit = Fin slope ->
      SciPy.intercept fit = Fin intercept ->
      Forall (fun P => fs s !! zeo_dirname P <> Some OS.File) target_pascals ->
      exists s' : state,
        production fit s = Ok s' /\
        runs s'
        = runs s
          ++ map (fun P : Z =>
                    zeo_call P (Fin (slope * ln (IZR P / 100000) + intercept)))
               target_pascals).
Proof.
  split; [exact in_units_Pa_bar|].
  split; [exact mus_any|].
  split; [exact mus_Pa|].
  intros slope intercept fit s Hs Hi Hfs.
  destruct (production_runs fit s Hfs) as (s' & E & Rn).
  exists s'. split; [exact E|]. rewrite Rn, Hs, Hi. f_equal.
  unfold pressures. rewrite (mus_Pa _ _ _ target_pascals_pos).
  rewrite List.map_map. apply zip_with_map_same.
Qed.

Lemma production_mu_is_line_at_bar_pressure_witness :
  mus (Fin 2) (Fin (-30)) (Unyt.mk_array [100000; 6000] Unyt.Pa)
  = [Fin (2 * ln (100000 / 100000) + -30); Fin (2 * ln (6000 / 100000) + -30)]
  /\ exists s' : state,
      production (SciPy.mk_fit (Fin 2) (Fin (-30)) NaN NaN NaN)
        (mk_state ∅ [] []) = Ok s' /\
      runs s'
      = map (fun P : Z => zeo_call P (Fin (2 * ln (IZR P / 100000) + -30)))
          target_pascals.
Proof.
  destruct production_mu_is_line_at_bar_pressure as (_ & _ & Hreal & Hprod).
  split.
  - apply (Hreal 2 (-30) [100000; 6000]). repeat constructor; lra.
  - apply (Hprod 2 (-30) (SciPy.mk_fit (Fin 2) (Fin (-30)) NaN NaN NaN)
             (mk_state ∅ [] [])); [reflexivity|reflexivity|].
    unfold target_pascals. repeat constructor; simpl; rewrite lookup_empty; discriminate.
Defined.

Lemma pressure_of_mu_line (slope intercept P : R) :
  slope <> 0 -> 0 < P ->
  pressure_of_mu slope intercept (slope * ln P + intercept) = P.
Proof.
  intros Hs HP. unfold pressure_of_mu.
  replace ((slope * ln P + intercept - intercept) / slope) with (ln P)
    by (field; exact Hs).
  apply exp_ln, HP.
Qed.

(** C3: for a non-zero slope and a positive target pressure, the chemical
    potential the notebook computes, solved back through
    P = exp((mu - intercept) / slope), gives the pressure it started from:
    in bar when the target is given in bar, and, converted back from bar,
    the original number of pascals when it is given in pascals. *)
Theorem pressure_roundtrip (slope intercept P : R) :
  slope <> 0 ->
  0 < P ->
  pressure_of_mu slope intercept (slope * ln P + intercept) = P /\
  (exists mu : R,
      mus (Fin slope) (Fin intercept) (Unyt.mk_array [P] Unyt.bar) = [Fin mu] /\
      pressure_of_mu slope intercept mu = P) /\
  (exists mu : R,
      mus (Fin slope) (Fin intercept) (Unyt.mk_array [P] Unyt.Pa) = [Fin mu] /\
      pressure_of_mu slope intercept mu * 100000 = P).
Proof.
  intros Hs HP.
  split; [apply pressure_of_mu_line; assumption|]. split.
  - exists (slope * ln P + intercept). split.
    + apply (mus_bar slope intercept [P]). repeat constructor. exact HP.
    + apply pressure_of_mu_line; assumption.
  - exists (slope * ln (P / 100000) + intercept). split.
    + apply (mus_Pa slope intercept [P]). repeat constructor. exact HP.
    + rewrite pressure_of_mu_line; [field|exact Hs|lra].
Qed.

Lemma pressure_roundtrip_witness :
  pressure_of_mu 3 (-40) (3 * ln 6000 + -40) = 6000.
Proof.
  apply (pressure_roundtrip 3 (-40) 6000); lra.
Defined.

End Production.

(** ** Least squares on the reals *)

Section LeastSquares.

Import Reference.
Local Open Scope R_scope.

Lemma Rsum_cons (a : R) (l : list R) : Rsum (a :: l) = a + Rsum l.
Proof. reflexivity. Qed.

Lemma moment_cons (f : R * R -> R) (p : R * R) (pts : list (R * R)) :
  moment f (p :: pts) = f p + moment f pts.
Proof. reflexivity. Qed.

Lemma INR_length_cons {A} (a : A) (l : list A) :
  INR (length (a :: l)) = INR (length l) + 1.
Proof. change (length (a :: l)) with (S (length l)). apply S_INR. Qed.

Lemma Rsum_nonneg (l : list R) : Forall (fun v => 0 <= v) l -> 0 <= Rsum l.
Proof.
  induction 1 as [|a l Ha _ IH]; [simpl; lra|]. rewrite Rsum_cons. lra.
Qed.

Lemma Rsum_pos (l : list R) :
  Forall (fun v => 0 <= v) l -> Exists (fun v => 0 < v) l -> 0 < Rsum l.
Proof.
  intros Hall Hex. induction Hex as [a l Ha|a l _ IH].
  - inversion Hall as [|? ? _ Hl]; subst. rewrite Rsum_cons.
    pose proof (Rsum_nonneg _ Hl). lra.
  - inversion Hall as [|? ? Ha Hl]; subst. rewrite Rsum_cons.
    specialize (IH Hl). lra.
Qed.

(** Sum of products of deviations from any two centres, by moments. *)
Lemma moment_centred (f g : R * R -> R) (m m' : R) (pts : list (R * R)) :
  moment (fun p => (f p - m) * (g p - m')) pts
  = moment (fun p => f p * g p) pts - m * moment g pts - m' * moment f pts
    + INR (length pts) * m * m'.
Proof.
  induction pts as [|p pts IH]; [unfold moment; simpl; ring|].
  rewrite !moment_cons, INR_length_cons, IH. ring.
Qed.

Lemma sse_moments (a b : R) (pts : list (R * R)) :
  sse a b pts
  = moment (fun p => snd p * snd p) pts
    - 2 * a * moment (fun p => fst p * snd p) pts
    - 2 * b * moment snd pts
    + a * a * moment (fun p => fst p * fst p) pts
    + 2 * a * b * moment fst pts
    + b * b * INR (length pts).
Proof.
  change (sse a b pts)
    with (moment (fun p => (snd p - (a * fst p + b)) * (snd p - (a * fst p + b))) pts).
  induction pts as [|p pts IH]; [unfold moment; simpl; ring|].
  rewrite !moment_cons, INR_length_cons, IH. ring.
Qed.

Lemma mean_x_moment (pts : list (R * R)) :
  mean_x pts = moment fst pts / INR (length pts).
Proof. unfold mean_x, arith_mean, moment. rewrite length_map. reflexivity. Qed.

Lemma mean_y_moment (pts : list (R * R)) :
  mean_y pts = moment snd pts / INR (length pts).
Proof. unfold mean_y, arith_mean, moment. rewrite length_map. reflexivity. Qed.

Lemma cov_xx_moment (pts : list (R * R)) :
  pts <> [] ->
  cov_xx pts
  = (moment (fun p => fst p * fst p) pts
     - moment fst pts * moment fst pts / INR (length pts))
    / INR (length pts).
Proof.
  intros Hne. pose proof (INR_length_neq0 _ Hne) as Hn.
  unfold cov_xx, arith_mean. rewrite length_map.
  change (Rsum (map (fun p : R * R => (fst p - mean_x pts) * (fst p - mean_x pts)) pts))
    with (moment (fun p => (fst p - mean_x pts) * (fst p - mean_x pts)) pts).
  rewrite (moment_centred fst fst), mean_x_moment. field. exact Hn.
Qed.

Lemma cov_xy_moment (pts : list (R * R)) :
  pts <> [] ->
  cov_xy pts
  = (moment (fun p => fst p * snd p) pts
     - moment fst pts * moment snd pts / INR (length pts))
    / INR (length pts).
Proof.
  intros Hne. pose proof (INR_length_neq0 _ Hne) as Hn.
  unfold cov_xy, arith_mean. rewrite length_map.
  change (Rsum (map (fun p : R * R => (fst p - mean_x pts) * (snd p - mean_y pts)) pts))
    with (moment (fun p => (fst p - mean_x pts) * (snd p - mean_y pts)) pts).
  rewrite (moment_centred fst snd), mean_x_moment, mean_y_moment. field. exact Hn.
Qed.

(** Two different abscissas give a positive variance. *)
Lemma cov_xx_pos (pts : list (R * R)) :
  two_distinct (map fst pts) -> 0 < cov_xx pts.
Proof.
  intros (a & b & Ha & Hb & Hab).
  assert (Hne : pts <> []) by (intros ->; inversion Ha).
  unfold cov_xx, arith_mean. rewrite length_map.
  apply Rmult_lt_0_compat.
  - apply Rsum_pos.
    + apply Forall_map, Forall_forall. intros p _.
      unfold compose. apply Rle_0_sqr.
    + set (m := mean_x pts).
      assert (Hx : exists x, In x (map fst pts) /\ x <> m).
      { destruct (Req_dec_T a m) as [Ea|Na]; [|eauto].
        exists b. split; [exact Hb|]. congruence. }
      destruct Hx as (x & Hx & Hxm).
      apply in_map_iff in Hx as (p & <- & Hp).
      apply List.Exists_exists. exists ((fst p - m) * (fst p - m)). split.
      * apply in_map_iff. exists p. split; [reflexivity|exact Hp].
      * assert (fst p - m <> 0) by lra. nra.
  - apply Rinv_0_lt_compat.
    destruct pts as [|p pts]; [congruence|]. apply lt_0_INR. simpl. lia.
Qed.

(** The gap between the error of any line and the error of the closed-form
    line is a sum of two squares. *)
Lemma sse_gap (a b : R) (pts : list (R * R)) :
  pts <> [] ->
  cov_xx pts <> 0 ->
  sse a b pts - sse (ols_slope pts) (ols_intercept pts) pts
  = INR (length pts)
    * (((b - ols_intercept pts) + (a - ols_slope pts) * mean_x pts)
       * ((b - ols_intercept pts) + (a - ols_slope pts) * mean_x pts)
       + (a - ols_slope pts) * (a - ols_slope pts) * cov_xx pts).
Proof.
  intros Hne Hd. pose proof (INR_length_neq0 _ Hne) as Hn.
  rewrite !sse_moments. unfold ols_intercept, ols_slope.
  rewrite (cov_xx_moment _ Hne) in *. rewrite (cov_xy_moment _ Hne).
  rewrite mean_x_moment, mean_y_moment.
  generalize dependent (INR (length pts)).
  generalize (moment fst pts) (moment snd pts)
    (moment (fun p => fst p * fst p) pts) (moment (fun p => fst p * snd p) pts)
    (moment (fun p => snd p * snd p) pts).
  intros Sx Sy Sxx Sxy Syy n Hd Hn.
  assert (Hd' : Sxx * n - Sx * Sx <> 0).
  { intros E. apply Hd. field_simplify; [|exact Hn].
    replace (Sxx * n - Sx ^ 2) with (Sxx * n - Sx * Sx) by ring.
    rewrite E. field. exact Hn. }
  field. split; assumption.
Qed.

Lemma ols_minimises (a b : R) (pts : list (R * R)) :
  pts <> [] ->
  0 < cov_xx pts ->
  sse (ols_slope pts) (ols_intercept pts) pts <= sse a b pts.
Proof.
  intros Hne Hd.
  assert (Hgap := sse_gap a b pts Hne (Rgt_not_eq _ _ Hd)).
  assert (Hn : 0 < INR (length pts)).
  { destruct pts; [congruence|]. apply lt_0_INR. simpl. lia. }
  set (u := a - ols_slope pts) in *.
  set (v := b - ols_intercept pts + u * mean_x pts) in *.
  assert (0 <= v * v + u * u * cov_xx pts) by nra.
  assert (0 <= INR (length pts) * (v * v + u * u * cov_xx pts))
    by (apply Rmult_le_pos; lra).
  lra.
Qed.

Lemma ols_unique (a b : R) (pts : list (R * R)) :
  pts <> [] ->
  0 < cov_xx pts ->
  sse a b pts = sse (ols_slope pts) (ols_intercept pts) pts ->
  a = ols_slope pts /\ b = ols_intercept pts.
Proof.
  intros Hne Hd Heq.
  assert (Hgap := sse_gap a b pts Hne (Rgt_not_eq _ _ Hd)).
  assert (Hn : 0 < INR (length pts)).
  { destruct pts; [congruence|]. apply lt_0_INR. simpl. lia. }
  set (u := a - ols_slope pts) in *.
  set (v := b - ols_intercept pts + u * mean_x pts) in *.
  rewrite Heq, Rminus_diag in Hgap.
  assert (Hz : v * v + u * u * cov_xx pts = 0).
  { destruct (Rmult_integral _ _ (eq_sym Hgap)); lra. }
  assert (Hu2 : u * u * cov_xx pts = 0) by nra.
  assert (Hu : u = 0).
  { destruct (Rmult_integral _ _ Hu2) as [Huu|]; [|lra].
    destruct (Rmult_integral _ _ Huu); assumption. }
  assert (Hv : v = 0).
  { rewrite Hu2, Rplus_0_r in Hz. destruct (Rmult_integral _ _ Hz); assumption. }
  subst u v. rewrite Hu in Hv. split; lra.
Qed.

Lemma sse_nonneg (a b : R) (pts : list (R * R)) : 0 <= sse a b pts.
Proof.
  unfold sse. apply Rsum_nonneg, Forall_map, Forall_forall. intros p _.
  unfold compose. apply Rle_0_sqr.
Qed.

(** Points that all lie on one line have zero error on it. *)
Lemma sse_exact (s b : R) (pts : list (R * R)) :
  Forall (fun p => snd p = s * fst p + b) pts -> sse s b pts = 0.
Proof.
  induction 1 as [|p pts Hp _ IH]; [reflexivity|].
  unfold sse in *. simpl. rewrite IH, Hp. ring.
Qed.

Lemma ols_recovers_line (s b : R) (pts : list (R * R)) :
  two_distinct (map fst pts) ->
  Forall (fun p => snd p = s * fst p + b) pts ->
  ols_slope pts = s /\ ols_intercept pts = b.
Proof.
  intros Hd Hline.
  assert (Hne : pts <> []).
  { destruct Hd as (x & _ & Hx & _). intros ->. inversion Hx. }
  pose proof (cov_xx_pos _ Hd) as Hpos.
  pose proof (ols_minimises s b pts Hne Hpos) as Hmin.
  rewrite (sse_exact _ _ _ Hline) in Hmin.
  pose proof (sse_nonneg (ols_slope pts) (ols_intercept pts) pts) as H0.
  destruct (ols_unique s b pts Hne Hpos) as [-> ->]; [|split; reflexivity].
  rewrite (sse_exact _ _ _ Hline). lra.
Qed.

End LeastSquares.

(** ** The fit on finite data *)

Section Fit.

Import NumPy Notebook Reference.
Local Open Scope R_scope.

Variable significance : list float64 -> list float64 -> float64 -> float64 * float64.

Lemma zip_with_map_map {A B C D} (h : B -> C -> D) (f : A -> B) (g : A -> C)
    (l : list A) :
  zip_with h (map f l) (map g l) = map (fun a => h (f a) (g a)) l.
Proof.
  induction l as [|a l IH]; simpl; [reflexivity|]. f_equal. apply IH.
Qed.

Lemma mean_map_Fin {A} (f : A -> R) (l : list A) :
  l <> [] -> mean (map (fun a => Fin (f a)) l) = Fin (arith_mean (map f l)).
Proof.
  intros Hne. rewrite <- (List.map_map f Fin). apply mean_Fin.
  destruct l; [congruence|discriminate].
Qed.

(** On finite points the routine returns the closed-form statistics. *)
Lemma linregress_points (pts : list (R * R)) :
  pts <> [] ->
  let x := map (fun p : R * R => Fin (fst p)) pts in
  let y := map (fun p : R * R => Fin (snd p)) pts in
  let r_den := np_sqrt (Fin (cov_xx pts * cov_yy pts)) in
  let r :=
    if eqb_const r_den 0 then Fin 0
    else SciPy.clamp_r (div (Fin (cov_xy pts)) r_den) in
  let slope := div (Fin (cov_xy pts)) (Fin (cov_xx pts)) in
  SciPy.linregress significance x y
  = Ok (SciPy.mk_fit slope
          (sub (Fin (mean_y pts)) (mul slope (Fin (mean_x pts))))
          r (fst (significance x y r)) (snd (significance x y r))).
Proof.
  intros Hne x y.
  assert (Hxm : mean x = Fin (mean_x pts)) by apply (mean_map_Fin fst), Hne.
  assert (Hym : mean y = Fin (mean_y pts)) by apply (mean_map_Fin snd), Hne.
  assert (Hxx : mean (zip_with mul (map (fun v => sub v (Fin (mean_x pts))) x)
                                   (map (fun v => sub v (Fin (mean_x pts))) x))
                = Fin (cov_xx pts)).
  { unfold x. rewrite !List.map_map, zip_with_map_map.
    apply (mean_map_Fin
             (fun p : R * R => (fst p - mean_x pts) * (fst p - mean_x pts))), Hne. }
  assert (Hxy : mean (zip_with mul (map (fun v => sub v (Fin (mean_x pts))) x)
                                   (map (fun v => sub v (Fin (mean_y pts))) y))
                = Fin (cov_xy pts)).
  { unfold x, y. rewrite !List.map_map, zip_with_map_map.
    apply (mean_map_Fin
             (fun p : R * R => (fst p - mean_x pts) * (snd p - mean_y pts))), Hne. }
  assert (Hyy : mean (zip_with mul (map (fun v => sub v (Fin (mean_y pts))) y)
                                   (map (fun v => sub v (Fin (mean_y pts))) y))
                = Fin (cov_yy pts)).
  { unfold y. rewrite !List.map_map, zip_with_map_map.
    apply (mean_map_Fin
             (fun p : R * R => (snd p - mean_y pts) * (snd p - mean_y pts))), Hne. }
  unfold SciPy.linregress.
  assert (Hlx : length x = length pts) by apply length_map.
  assert (Hly : length y = length pts) by apply length_map.
  rewrite Hlx, Hly, Nat.eqb_refl.
  destruct pts as [|p pts]; [congruence|].
  cbn [length Nat.eqb orb negb].
  rewrite Hxm, Hym, Hxx, Hxy, Hyy. reflexivity.
Qed.

Lemma linregress_points_ols (pts : list (R * R)) :
  two_distinct (map fst pts) ->
  exists fit : SciPy.LinregressResult,
    SciPy.linregress significance
      (map (fun p : R * R => Fin (fst p)) pts)
      (map (fun p : R * R => Fin (snd p)) pts) = Ok fit /\
    SciPy.slope fit = Fin (ols_slope pts) /\
    SciPy.intercept fit = Fin (ols_intercept pts).
Proof.
  intros Hd.
  assert (Hne : pts <> []).
  { destruct Hd as (a & _ & Ha & _). intros ->. inversion Ha. }
  pose proof (cov_xx_pos _ Hd) as Hpos.
  eexists. split; [apply linregress_points, Hne|].
  cbn [SciPy.slope SciPy.intercept].
  rewrite div_Fin by lra. split; reflexivity.
Qed.

(** The logarithms [calibrate] takes of positive mean pressures. *)
Lemma log_pressures (data : list (R * R)) :
  Forall (fun d => 0 < snd d) data ->
  map log (map (fun d : R * R => Fin (snd d)) data)
  = map (fun p : R * R => Fin (fst p)) (points_of data).
Proof.
  intros Hpos. unfold points_of. rewrite !List.map_map.
  apply map_ext_Forall. eapply Forall_impl; [exact Hpos|].
  intros d Hd. cbv beta in *. apply log_Fin_pos, Hd.
Qed.

Lemma mus_points (data : list (R * R)) :
  map (fun d : R * R => Fin (fst d)) data
  = map (fun p : R * R => Fin (snd p)) (points_of data).
Proof. unfold points_of. rewrite List.map_map. reflexivity. Qed.

Lemma distinct_logs (data : list (R * R)) :
  Forall (fun d => 0 < snd d) data ->
  two_distinct (map snd data) ->
  two_distinct (map fst (points_of data)).
Proof.
  intros Hpos (a & b & Ha & Hb & Hab).
  rewrite List.Forall_forall in Hpos.
  apply in_map_iff in Ha as (da & <- & Hda).
  apply in_map_iff in Hb as (db & <- & Hdb).
  exists (ln (snd da)), (ln (snd db)).
  unfold points_of. rewrite List.map_map. cbn [fst].
  split; [apply in_map_iff; exists da; split; [reflexivity|exact Hda]|].
  split; [apply in_map_iff; exists db; split; [reflexivity|exact Hdb]|].
  intros E. apply Hab. apply ln_inv; [apply Hpos, Hda|apply Hpos, Hdb|exact E].
Qed.

End Fit.

(** ** The calibration fit *)

Section CalibrationFit.

Import NumPy Notebook Reference.
Local Open Scope R_scope.

Lemma calibrate_points
    (significance : list float64 -> list float64 -> float64 -> float64 * float64)
    (data : list (R * R)) :
  Forall (fun d => 0 < snd d) data ->
  calibrate significance
    (map (fun d : R * R => Fin (fst d)) data)
    (map (fun d : R * R => Fin (snd d)) data)
  = SciPy.linregress significance
      (map (fun p : R * R => Fin (fst p)) (points_of data))
      (map (fun p : R * R => Fin (snd p)) (points_of data)).
Proof.
  intros Hpos. unfold calibrate.
  rewrite (log_pressures _ Hpos), <- mus_points. reflexivity.
Qed.

(** C1, as amended: for runs (mu_i, P_i) with every P_i positive and at
    least two different P_i, the fit returns a finite slope and intercept
    that minimise the sum of squared errors of mu = slope * ln(P) +
    intercept over all lines, and no other line reaches that minimum: mu is
    regressed on ln(P). *)
Theorem calibration_is_least_squares
    (significance : list float64 -> list float64 -> float64 -> float64 * float64)
    (data : list (R * R)) :
  Forall (fun d => 0 < snd d) data ->
  two_distinct (map snd data) ->
  exists (fit : SciPy.LinregressResult) (slope intercept : R),
    calibrate significance
      (map (fun d : R * R => Fin (fst d)) data)
      (map (fun d : R * R => Fin (snd d)) data) = Ok fit /\
    SciPy.slope fit = Fin slope /\
    SciPy.intercept fit = Fin intercept /\
    (forall a b : R,
        sse slope intercept (points_of data) <= sse a b (points_of data)) /\
    (forall a b : R,
        sse a b (points_of data) = sse slope intercept (points_of data) ->
        a = slope /\ b = intercept).
Proof.
  intros Hpos Hdist.
  pose proof (distinct_logs _ Hpos Hdist) as Hd.
  assert (Hne : points_of data <> []).
  { destruct Hd as (a & _ & Ha & _). intros E. rewrite E in Ha. inversion Ha. }
  pose proof (cov_xx_pos _ Hd) as Hcov.
  destruct (linregress_points_ols significance _ Hd) as (fit & Hfit & Hs & Hi).
  exists fit, (ols_slope (points_of data)), (ols_intercept (points_of data)).
  rewrite (calibrate_points _ _ Hpos).
  split; [exact Hfit|]. split; [exact Hs|]. split; [exact Hi|]. split.
  - intros a b. apply ols_minimises; assumption.
  - intros a b. apply ols_unique; assumption.
Qed.

Lemma calibration_is_least_squares_witness :
  exists (fit : SciPy.LinregressResult) (slope intercept : R),
    calibrate (fun _ _ _ => (Fin 0, Fin 0))
      (map (fun d : R * R => Fin (fst d)) [(-46, 1); (-40, 2); (-37, 5)])
      (map (fun d : R * R => Fin (snd d)) [(-46, 1); (-40, 2); (-37, 5)])
    = Ok fit /\
    SciPy.slope fit = Fin slope /\
    SciPy.intercept fit = Fin intercept /\
    (forall a b : R,
        sse slope intercept (points_of [(-46, 1); (-40, 2); (-37, 5)])
        <= sse a b (points_of [(-46, 1); (-40, 2); (-37, 5)])) /\
    (forall a b : R,
        sse a b (points_of [(-46, 1); (-40, 2); (-37, 5)])
        = sse slope intercept (points_of [(-46, 1); (-40, 2); (-37, 5)]) ->
        a = slope /\ b = intercept).
Proof.
  apply (calibration_is_least_squares (fun _ _ _ => (Fin 0, Fin 0))
           [(-46, 1); (-40, 2); (-37, 5)]).
  - repeat constructor; simpl; lra.
  - exists 1, 2. simpl. split; [tauto|]. split; [tauto|]. lra.
Defined.

Lemma div_zero_zero : div (Fin 0) (Fin 0) = NaN.
Proof.
  unfold div, scale_inf.
  destruct (Req_dec_T 0 0) as [_|H]; [|lra].
  destruct (Rlt_dec 0 0) as [H|_]; [lra|reflexivity].
Qed.

(** C1, the part that fails: two runs with the same positive mean
    pressure; the variance of ln(P) is zero and the slope and intercept
    returned are 0/0, not a number, so no minimiser comes back. *)
Lemma calibration_same_pressure_gives_nan :
  Forall (fun d : R * R => 0 < snd d) [(-46, 2); (-43, 2)] /\
  exists fit : SciPy.LinregressResult,
    calibrate (fun _ _ _ => (NaN, NaN))
      (map (fun d : R * R => Fin (fst d)) [(-46, 2); (-43, 2)])
      (map (fun d : R * R => Fin (snd d)) [(-46, 2); (-43, 2)]) = Ok fit /\
    SciPy.slope fit = NaN /\
    SciPy.intercept fit = NaN.
Proof.
  assert (Hpos : Forall (fun d : R * R => 0 < snd d) [(-46, 2); (-43, 2)])
    by (repeat constructor; simpl; lra).
  split; [exact Hpos|].
  eexists. split.
  - rewrite (calibrate_points _ _ Hpos). apply linregress_points. discriminate.
  - cbn [SciPy.slope SciPy.intercept].
    assert (Hxx : cov_xx (points_of [(-46, 2); (-43, 2)]) = 0).
    { unfold cov_xx, mean_x, arith_mean, Rsum. simpl. field. }
    assert (Hxy : cov_xy (points_of [(-46, 2); (-43, 2)]) = 0).
    { unfold cov_xy, mean_x, mean_y, arith_mean, Rsum. simpl. field. }
    rewrite Hxx, Hxy, div_zero_zero. split; reflexivity.
Qed.

(** C4: when the chemical potentials lie exactly on the line
    mu = s * ln(P) + b, over positive pressures of which two differ, the fit
    returns the slope s and the intercept b. *)
Theorem exact_line_is_recovered
    (significance : list float64 -> list float64 -> float64 -> float64 * float64)
    (s b : R) (data : list (R * R)) :
  Forall (fun d => 0 < snd d) data ->
  two_distinct (map snd data) ->
  Forall (fun d => fst d = s * ln (snd d) + b) data ->
  exists fit : SciPy.LinregressResult,
    calibrate significance
      (map (fun d : R * R => Fin (fst d)) data)
      (map (fun d : R * R => Fin (snd d)) data) = Ok fit /\
    SciPy.slope fit = Fin s /\
    SciPy.intercept fit = Fin b.
Proof.
  intros Hpos Hdist Hline.
  pose proof (distinct_logs _ Hpos Hdist) as Hd.
  destruct (linregress_points_ols significance _ Hd) as (fit & Hfit & Hs & Hi).
  destruct (ols_recovers_line s b (points_of data) Hd) as [Es Eb].
  { unfold points_of. apply Forall_map. eapply Forall_impl; [exact Hline|].
    intros d Hdl. exact Hdl. }
  exists fit. rewrite (calibrate_points _ _ Hpos).
  split; [exact Hfit|]. rewrite Hs, Hi, Es, Eb. split; reflexivity.
Qed.

Lemma exact_line_is_recovered_witness :
  exists fit : SciPy.LinregressResult,
    calibrate (fun _ _ _ => (Fin 0, Fin 0))
      (map (fun d : R * R => Fin (fst d))
         [(3 * ln 1 + -46, 1); (3 * ln 2 + -46, 2); (3 * ln 7 + -46, 7)])
      (map (fun d : R * R => Fin (snd d))
         [(3 * ln 1 + -46, 1); (3 * ln 2 + -46, 2); (3 * ln 7 + -46, 7)])
    = Ok fit /\
    SciPy.slope fit = Fin 3 /\
    SciPy.intercept fit = Fin (-46).
Proof.
  apply (exact_line_is_recovered (fun _ _ _ => (Fin 0, Fin 0)) 3 (-46)).
  - repeat constructor; simpl; lra.
  - exists 1, 2. simpl. split; [tauto|]. split; [tauto|]. lra.
  - repeat constructor.
Defined.

(** C6: under the precondition (two distinct chemical potentials, every
    mean pressure positive) each logarithm taken by the fit is the finite
    number ln(P_i), so the undefined branch of the logarithm is not
    reached; without the precondition the logarithm is undefined for some
    input: the runs (-46, 1), (-43, 0) do not meet it and ln(0) is not
    finite.  More precisely, positive pressures alone make every logarithm
    finite, and some logarithm is not finite (NaN or -inf) as soon as one
    mean pressure is not positive. *)
Theorem ln_defined_iff_pressures_positive :
  (forall data : list (R * R),
      calibration_precondition data ->
      map log (map (fun d : R * R => Fin (snd d)) data)
      = map (fun d : R * R => Fin (ln (snd d))) data) /\
  (exists data : list (R * R),
      ~ calibration_precondition data /\
      Exists (fun d => isfinite (log (Fin (snd d))) = false) data) /\
  (forall data : list (R * R),
      Forall (fun d => 0 < snd d) data ->
      map log (map (fun d : R * R => Fin (snd d)) data)
      = map (fun d : R * R => Fin (ln (snd d))) data) /\
  (forall data : list (R * R),
      ~ Forall (fun d => 0 < snd d) data ->
      Exists (fun d => isfinite (log (Fin (snd d))) = false) data).
Proof.
  assert (Hpos : forall data : list (R * R),
             Forall (fun d => 0 < snd d) data ->
             map log (map (fun d : R * R => Fin (snd d)) data)
             = map (fun d : R * R => Fin (ln (snd d))) data).
  { intros data H. rewrite (log_pressures _ H). unfold points_of.
    rewrite List.map_map. reflexivity. }
  assert (Hneg : forall data : list (R * R),
             ~ Forall (fun d => 0 < snd d) data ->
             Exists (fun d => isfinite (log (Fin (snd d))) = false) data).
  { intros data Hn.
    apply List.neg_Forall_Exists_neg in Hn; [|intros d; apply Rlt_dec].
    eapply Exists_impl; [exact Hn|].
    intros d Hd. apply log_Fin_nonpos, Hd. }
  assert (Hzero : ~ Forall (fun d : R * R => 0 < snd d) [(-46, 1); (-43, 0)]).
  { intros H. inversion H as [|? ? _ H']; subst.
    inversion H' as [|? ? H0 _]; subst. simpl in H0. lra. }
  split; [intros data [_ H]; apply Hpos, H|].
  split; [|split; [exact Hpos|exact Hneg]].
  exists [(-46, 1); (-43, 0)]. split.
  - intros [_ H]. exact (Hzero H).
  - apply Hneg, Hzero.
Qed.

Lemma ln_defined_iff_pressures_positive_witness :
  map log (map (fun d : R * R => Fin (snd d)) [(-46, 1); (-43, 2)])
  = map (fun d : R * R => Fin (ln (snd d))) [(-46, 1); (-43, 2)]
  /\ Exists (fun d : R * R => isfinite (log (Fin (snd d))) = false)
       [(-46, 1); (-43, 0)].
Proof.
  split.
  - apply (proj1 ln_defined_iff_pressures_positive [(-46, 1); (-43, 2)]).
    split.
    + exists (-46), (-43). simpl. split; [tauto|]. split; [tauto|]. lra.
    + repeat constructor; simpl; lra.
  - apply (proj2 (proj2 (proj2 ln_defined_iff_pressures_positive))
             [(-46, 1); (-43, 0)]).
    intros H. inversion H as [|? ? _ H']; subst.
    inversion H' as [|? ? H0 _]; subst. simpl in H0. lra.
Defined.

(** The downstream cells read two of the five outputs. *)
Lemma production_reads_slope_intercept (fit1 fit2 : SciPy.LinregressResult) :
  SciPy.slope fit1 = SciPy.slope fit2 ->
  SciPy.intercept fit1 = SciPy.intercept fit2 ->
  forall s : state, production fit1 s = production fit2 s.
Proof. intros Hs Hi s. unfold production. rewrite Hs, Hi. reflexivity. Qed.

(** C8: two calibrations whose fits agree on slope and intercept give the
    same chemical potentials and the same production loop, state by state,
    whatever their correlation coefficient, p-value and standard error
    are; the same holds for the notebook from its calibration tables to the
    end of the production loop. *)
Theorem fit_quality_never_read
    (sig1 sig2 : list float64 -> list float64 -> float64 -> float64 * float64)
    (mus1 ps1 mus2 ps2 : list float64)
    (fit1 fit2 : SciPy.LinregressResult) :
  calibrate sig1 mus1 ps1 = Ok fit1 ->
  calibrate sig2 mus2 ps2 = Ok fit2 ->
  SciPy.slope fit1 = SciPy.slope fit2 ->
  SciPy.intercept fit1 = SciPy.intercept fit2 ->
  (forall targets : Unyt.unyt_array,
      mus (SciPy.slope fit1) (SciPy.intercept fit1) targets
      = mus (SciPy.slope fit2) (SciPy.intercept fit2) targets) /\
  (forall s : state, production fit1 s = production fit2 s) /\
  (forall (files1 files2 : tables) (s : state),
      pressures_of files1 = Ok ps1 ->
      pressures_of files2 = Ok ps2 ->
      mus1 = map (fun z => Fin (IZR z)) mus_adsorbate ->
      mus2 = map (fun z => Fin (IZR z)) mus_adsorbate ->
      notebook sig1 files1 s = notebook sig2 files2 s).
Proof.
  intros H1 H2 Hs Hi.
  split; [intros targets; rewrite Hs, Hi; reflexivity|].
  split; [apply production_reads_slope_intercept; assumption|].
  intros files1 files2 s Hp1 Hp2 -> ->. unfold notebook.
  destruct (pure_sweep s) as [s1|e]; [|reflexivity]. cbn [py_bind].
  rewrite Hp1, Hp2. cbn [py_bind]. rewrite H1, H2. cbn [py_bind].
  apply production_reads_slope_intercept; assumption.
Qed.

Lemma rvalue_finite (cxx cyy cxy d : R) :
  0 < d ->
  cxx * cyy = d * d ->
  -1 <= cxy / d <= 1 ->
  (if eqb_const (np_sqrt (Fin (cxx * cyy))) 0 then Fin 0
   else SciPy.clamp_r (div (Fin cxy) (np_sqrt (Fin (cxx * cyy)))))
  = Fin (cxy / d).
Proof.
  intros Hd Hsq Hr. rewrite Hsq. unfold np_sqrt.
  destruct (Rlt_dec (d * d) 0) as [Hneg|_]; [nra|].
  rewrite sqrt_square by lra. unfold eqb_const.
  destruct (Req_dec_T d 0) as [E|_]; [lra|].
  rewrite div_Fin by lra.
  unfold SciPy.clamp_r, gtb_const, ltb_const.
  destruct (Rlt_dec 1 (cxy / d)) as [H|_]; [lra|].
  destruct (Rlt_dec (cxy / d) (-1)) as [H|_]; [lra|reflexivity].
Qed.

(** Three runs at ln(P) = 0, 1, 2 whose chemical potentials 0, 1, 2 lie on
    the line of slope 1 through the origin: a perfect fit. *)
Lemma fit_on_the_line :
  calibrate (fun _ _ _ => (NaN, NaN))
    (map Fin [0; 1; 2]) (map Fin [1; exp 1; exp 2])
  = Ok (SciPy.mk_fit (Fin 1) (Fin 0) (Fin 1) NaN NaN).
Proof.
  assert (Hpos : Forall (fun d : R * R => 0 < snd d)
                   [(0, 1); (1, exp 1); (2, exp 2)]).
  { repeat constructor; simpl; [lra|apply exp_pos|apply exp_pos]. }
  assert (Hpts : points_of [(0, 1); (1, exp 1); (2, exp 2)]
                 = [(0, 0); (1, 1); (2, 2)]).
  { unfold points_of. simpl. rewrite ln_1, !ln_exp. reflexivity. }
  change (map Fin [0; 1; 2])
    with (map (fun d : R * R => Fin (fst d)) [(0, 1); (1, exp 1); (2, exp 2)]).
  change (map Fin [1; exp 1; exp 2])
    with (map (fun d : R * R => Fin (snd d)) [(0, 1); (1, exp 1); (2, exp 2)]).
  rewrite (calibrate_points _ _ Hpos), Hpts.
  rewrite linregress_points by discriminate. cbn [fst snd].
  assert (Hxx : cov_xx [(0, 0); (1, 1); (2, 2)] = 2 / 3)
    by (unfold cov_xx, mean_x, arith_mean, Rsum; simpl; field).
  assert (Hxy : cov_xy [(0, 0); (1, 1); (2, 2)] = 2 / 3)
    by (unfold cov_xy, mean_x, mean_y, arith_mean, Rsum; simpl; field).
  assert (Hyy : cov_yy [(0, 0); (1, 1); (2, 2)] = 2 / 3)
    by (unfold cov_yy, mean_y, arith_mean, Rsum; simpl; field).
  assert (Hmx : mean_x [(0, 0); (1, 1); (2, 2)] = 1)
    by (unfold mean_x, arith_mean, Rsum; simpl; field).
  assert (Hmy : mean_y [(0, 0); (1, 1); (2, 2)] = 1)
    by (unfold mean_y, arith_mean, Rsum; simpl; field).
  rewrite Hxx, Hxy, Hyy, Hmx, Hmy.
  rewrite (rvalue_finite (2 / 3) (2 / 3) (2 / 3) (2 / 3)) by lra.
  rewrite div_Fin by lra. cbn [sub mul add neg].
  f_equal. f_equal; f_equal; field.
Qed.

(** The same pressures with chemical potentials 1, -1, 3: the least-squares
    line is the same, the correlation is only 1/2. *)
Lemma fit_off_the_line :
  calibrate (fun _ _ _ => (NaN, NaN))
    (map Fin [1; -1; 3]) (map Fin [1; exp 1; exp 2])
  = Ok (SciPy.mk_fit (Fin 1) (Fin 0) (Fin (1 / 2)) NaN NaN).
Proof.
  assert (Hpos : Forall (fun d : R * R => 0 < snd d)
                   [(1, 1); (-1, exp 1); (3, exp 2)]).
  { repeat constructor; simpl; [lra|apply exp_pos|apply exp_pos]. }
  assert (Hpts : points_of [(1, 1); (-1, exp 1); (3, exp 2)]
                 = [(0, 1); (1, -1); (2, 3)]).
  { unfold points_of. simpl. rewrite ln_1, !ln_exp. reflexivity. }
  change (map Fin [1; -1; 3])
    with (map (fun d : R * R => Fin (fst d)) [(1, 1); (-1, exp 1); (3, exp 2)]).
  change (map Fin [1; exp 1; exp 2])
    with (map (fun d : R * R => Fin (snd d)) [(1, 1); (-1, exp 1); (3, exp 2)]).
  rewrite (calibrate_points _ _ Hpos), Hpts.
  rewrite linregress_points by discriminate. cbn [fst snd].
  assert (Hxx : cov_xx [(0, 1); (1, -1); (2, 3)] = 2 / 3)
    by (unfold cov_xx, mean_x, arith_mean, Rsum; simpl; field).
  assert (Hxy : cov_xy [(0, 1); (1, -1); (2, 3)] = 2 / 3)
    by (unfold cov_xy, mean_x, mean_y, arith_mean, Rsum; simpl; field).
  assert (Hyy : cov_yy [(0, 1); (1, -1); (2, 3)] = 8 / 3)
    by (unfold cov_yy, mean_y, arith_mean, Rsum; simpl; field).
  assert (Hmx : mean_x [(0, 1); (1, -1); (2, 3)] = 1)
    by (unfold mean_x, arith_mean, Rsum; simpl; field).
  assert (Hmy : mean_y [(0, 1); (1, -1); (2, 3)] = 1)
    by (unfold mean_y, arith_mean, Rsum; simpl; field).
  rewrite Hxx, Hxy, Hyy, Hmx, Hmy.
  rewrite (rvalue_finite (2 / 3) (8 / 3) (2 / 3) (4 / 3)) by lra.
  rewrite div_Fin by lra. cbn [sub mul add neg].
  f_equal. f_equal; f_equal; field.
Qed.

Lemma fit_quality_never_read_witness :
  calibrate (fun _ _ _ => (NaN, NaN))
    (map Fin [0; 1; 2]) (map Fin [1; exp 1; exp 2])
  = Ok (SciPy.mk_fit (Fin 1) (Fin 0) (Fin 1) NaN NaN) /\
  calibrate (fun _ _ _ => (NaN, NaN))
    (map Fin [1; -1; 3]) (map Fin [1; exp 1; exp 2])
  = Ok (SciPy.mk_fit (Fin 1) (Fin 0) (Fin (1 / 2)) NaN NaN) /\
  forall s : state,
    production (SciPy.mk_fit (Fin 1) (Fin 0) (Fin 1) NaN NaN) s
    = production (SciPy.mk_fit (Fin 1) (Fin 0) (Fin (1 / 2)) NaN NaN) s.
Proof.
  split; [exact fit_on_the_line|]. split; [exact fit_off_the_line|].
  exact (proj1 (proj2 (fit_quality_never_read _ _ _ _ _ _ _ _
                         fit_on_the_line fit_off_the_line eq_refl eq_refl))).
Defined.

End CalibrationFit.

(** ** The simulation loops as a whole *)

Section Loops.

Import NumPy Notebook.
Local Open Scope Z_scope.

(** What one iteration does, by what the directory name stands for. *)
Lemma iteration_cases (d : string) (c : run_call) (s : state) :
  iteration d c s
  = match fs s !! d with
    | Some OS.Dir => Ok (mk_state (fs s) (mkdir_calls s) (runs s ++ [c]))
    | Some OS.File => Raise FileExistsError
    | None =>
        Ok (mk_state (<[d := OS.Dir]> (fs s)) (mkdir_calls s ++ [d])
              (runs s ++ [c]))
    end.
Proof.
  destruct (fs s !! d) as [[|]|] eqn:E.
  - apply iteration_present, isdir_lookup, E.
  - unfold iteration. rewrite (ensure_dir_name_taken_by_file _ _ E). reflexivity.
  - apply iteration_absent, E.
Qed.

Lemma iteration_frame (d : string) (c : run_call) (s s' : state) :
  iteration d c s = Ok s' ->
  fs s' !! d = Some OS.Dir /\
  (forall d' : string, d' <> d -> fs s' !! d' = fs s !! d') /\
  (forall (d' : string) (n : OS.node),
      fs s !! d' = Some n -> fs s' !! d' = Some n).
Proof.
  rewrite iteration_cases. destruct (fs s !! d) as [[|]|] eqn:E; intros H;
    inversion H; subst; clear H; cbn [fs].
  - split; [exact E|]. split; [reflexivity|tauto].
  - split; [apply lookup_insert_eq|].
    split; [intros d' Hne; apply lookup_insert_ne; congruence|].
    intros d' n Hd'. destruct (decide (d' = d)) as [->|Hne]; [congruence|].
    rewrite lookup_insert_ne by congruence. exact Hd'.
Qed.

(** A whole loop over the runs [l], each with its directory name [dn] and
    its call [cl]: on success the launched runs are those of [l] in order,
    every run directory exists, every entry that existed is kept as it
    was, and nothing outside the run directories has changed. *)
Lemma loop_frame {A} (dn : A -> string) (cl : A -> run_call) (l : list A) :
  forall s s' : state,
    py_foldM (fun a => iteration (dn a) (cl a)) l s = Ok s' ->
    runs s' = runs s ++ map cl l /\
    (forall a : A, In a l -> fs s' !! dn a = Some OS.Dir) /\
    (forall (d : string) (n : OS.node),
        fs s !! d = Some n -> fs s' !! d = Some n) /\
    (forall d : string,
        (forall a : A, In a l -> dn a <> d) -> fs s' !! d = fs s !! d).
Proof.
  induction l as [|a l IH]; intros s s' H.
  - inversion H; subst. rewrite app_nil_r.
    split; [reflexivity|]. split; [intros a []|]. split; [tauto|reflexivity].
  - cbn [py_foldM] in H.
    destruct (iteration (dn a) (cl a) s) as [s1|e] eqn:E1; [|discriminate].
    cbn [py_bind] in H.
    destruct (iteration_frame _ _ _ _ E1) as (Hd & Hother & Hkeep).
    assert (Hr1 : runs s1 = runs s ++ [cl a]).
    { rewrite iteration_cases in E1.
      destruct (fs s !! dn a) as [[|]|]; inversion E1; reflexivity. }
    destruct (IH _ _ H) as (Hr & Hdirs & Hkeep' & Hout).
    split; [rewrite Hr, Hr1, <- app_assoc; reflexivity|].
    split.
    { intros b [<-|Hb]; [apply Hkeep', Hd|apply Hdirs, Hb]. }
    split; [intros d n Hdn; apply Hkeep', Hkeep, Hdn|].
    intros d Hd'. rewrite Hout by (intros b Hb; apply Hd'; right; exact Hb).
    apply Hother. intros ->. apply (Hd' a); [left|]; reflexivity.
Qed.

(** With every run directory already there, a loop only launches the
    runs. *)
Lemma loop_all_present {A} (dn : A -> string) (cl : A -> run_call) (l : list A) :
  forall s : state,
    (forall a : A, In a l -> fs s !! dn a = Some OS.Dir) ->
    py_foldM (fun a => iteration (dn a) (cl a)) l s
    = Ok (mk_state (fs s) (mkdir_calls s) (runs s ++ map cl l)).
Proof.
  induction l as [|a l IH]; intros s Hall.
  - cbn. rewrite app_nil_r. destruct s; reflexivity.
  - cbn [py_foldM]. rewrite iteration_cases, (Hall a) by (left; reflexivity).
    cbn [py_bind]. rewrite IH.
    + cbn [fs mkdir_calls runs map]. rewrite <- app_assoc. reflexivity.
    + intros b Hb. apply Hall. right. exact Hb.
Qed.

Lemma in_zip_fst {A B} (l : list A) (k : list B) (a : A) :
  length l = length k -> In a l -> exists b : B, In (a, b) (zip l k).
Proof.
  revert k. induction l as [|x l IH]; intros [|y k] Hlen Ha;
    try discriminate; [inversion Ha|].
  destruct Ha as [->|Ha].
  - exists y. left. reflexivity.
  - destruct (IH k) as (b & Hb); [simpl in Hlen; lia|exact Ha|].
    exists b. right. exact Hb.
Qed.

Lemma in_zip_inv {A B} (l : list A) (k : list B) (a : A) (b : B) :
  In (a, b) (zip l k) -> In a l.
Proof.
  revert k. induction l as [|x l IH]; intros [|y k] H; simpl in H; try tauto.
  destruct H as [E|H]; [inversion E; left; reflexivity|right; eapply IH, H].
Qed.

Lemma length_mus (slope intercept : float64) (a : Unyt.unyt_array) :
  length (mus slope intercept a) = length (Unyt.values a).
Proof.
  unfold mus, Unyt.log, Unyt.in_units. cbn [Unyt.values].
  rewrite !length_map. reflexivity.
Qed.

Lemma length_production_mus (slope intercept : float64) :
  length target_pascals = length (mus slope intercept pressures).
Proof.
  rewrite length_mus. unfold pressures. cbn [Unyt.values].
  rewrite length_map. reflexivity.
Qed.

Lemma production_frame (fit : SciPy.LinregressResult) (s s' : state) :
  production fit s = Ok s' ->
  (forall P : Z, In P target_pascals ->
                 fs s' !! zeo_dirname P = Some OS.Dir) /\
  (forall (d : string) (n : OS.node),
      fs s !! d = Some n -> fs s' !! d = Some n) /\
  (forall d : string,
      (forall P : Z, In P target_pascals -> zeo_dirname P <> d) ->
      fs s' !! d = fs s !! d).
Proof.
  intros H. unfold production in H.
  destruct (loop_frame (fun pm : Z * float64 => zeo_dirname (fst pm))
              (fun pm => zeo_call (fst pm) (snd pm)) _ s s' H)
    as (_ & Hdirs & Hkeep & Hout).
  split.
  { intros P HP.
    destruct (in_zip_fst _ _ P
                (length_production_mus (SciPy.slope fit) (SciPy.intercept fit)) HP)
      as (m & Hm).
    exact (Hdirs _ Hm). }
  split; [exact Hkeep|].
  intros d Hd. apply Hout. intros [P m] Hpm. cbn [fst].
  apply Hd. eapply in_zip_inv, Hpm.
Qed.

(** X1: a loop that ends without an exception has launched its runs in
    order (one per chemical potential of the sweep, one per target
    pressure of the production loop), has every run directory in place,
    has kept every entry that existed before as it was, and has touched no
    name other than those of its runs: the sweep and the production loop
    only ever add directories. *)
Theorem loops_only_add_run_directories (s s' : state) :
  (pure_sweep s = Ok s' ->
   runs s' = runs s ++ map pure_call mus_adsorbate /\
   (forall mu : Z, In mu mus_adsorbate ->
                   fs s' !! pure_dirname mu = Some OS.Dir) /\
   (forall (d : string) (n : OS.node),
       fs s !! d = Some n -> fs s' !! d = Some n) /\
   (forall d : string,
       (forall mu : Z, In mu mus_adsorbate -> pure_dirname mu <> d) ->
       fs s' !! d = fs s !! d)) /\
  (forall fit : SciPy.LinregressResult,
      production fit s = Ok s' ->
      runs s'
      = runs s
        ++ zip_with zeo_call target_pascals
             (mus (SciPy.slope fit) (SciPy.intercept fit) pressures) /\
      length (zip_with zeo_call target_pascals
                (mus (SciPy.slope fit) (SciPy.intercept fit) pressures))
      = length target_pascals /\
      (forall P : Z, In P target_pascals ->
                     fs s' !! zeo_dirname P = Some OS.Dir) /\
      (forall (d : string) (n : OS.node),
          fs s !! d = Some n -> fs s' !! d = Some n) /\
      (forall d : string,
          (forall P : Z, In P target_pascals -> zeo_dirname P <> d) ->
          fs s' !! d = fs s !! d)).
Proof.
  split.
  - intros H.
    exact (loop_frame pure_dirname pure_call mus_adsorbate s s' H).
  - intros fit H. split; [|split; [|apply (production_frame fit), H]].
    + unfold production in H.
      destruct (loop_frame (fun pm : Z * float64 => zeo_dirname (fst pm))
                  (fun pm => zeo_call (fst pm) (snd pm)) _ s s' H)
        as (Hruns & _).
      rewrite Hruns, map_zip_calls. reflexivity.
    + rewrite length_zip_with.
      rewrite <- (length_production_mus (SciPy.slope fit) (SciPy.intercept fit)).
      apply Nat.min_id.
Qed.

Lemma loops_only_add_run_directories_witness :
  exists s' : state,
    pure_sweep (mk_state {["notes.txt" := OS.File]} [] []) = Ok s' /\
    fs s' !! "notes.txt" = Some OS.File /\
    fs s' !! "pure_mu_-34" = Some OS.Dir /\
    fs s' !! "zeo_press_6000" = None.
Proof.
  destruct (loop_succeeds pure_dirname pure_call mus_adsorbate
              (mk_state {["notes.txt" := OS.File]} [] []))
    as (s' & E & _).
  { repeat constructor; vm_compute; discriminate. }
  exists s'. split; [exact E|].
  destruct (proj1 (loops_only_add_run_directories _ s') E)
    as (_ & Hdirs & Hkeep & Hout).
  split; [apply Hkeep; reflexivity|].
  split; [apply (Hdirs (-34)); vm_compute; tauto|].
  rewrite Hout; [reflexivity|].
  intros mu Hmu. vm_compute in Hmu.
  decompose [or] Hmu; subst; try contradiction; vm_compute; discriminate.
Defined.

(** X2: running a loop again after it succeeded creates nothing: the
    second pass makes no [os.mkdir] call, leaves the filesystem as it is,
    and launches the runs once more; for the production loop this holds
    whatever fit the second pass uses. *)
Theorem rerun_creates_nothing (s s1 : state) :
  (pure_sweep s = Ok s1 ->
   pure_sweep s1
   = Ok (mk_state (fs s1) (mkdir_calls s1)
           (runs s1 ++ map pure_call mus_adsorbate))) /\
  (forall fit fit' : SciPy.LinregressResult,
      production fit s = Ok s1 ->
      production fit' s1
      = Ok (mk_state (fs s1) (mkdir_calls s1)
              (runs s1
               ++ zip_with zeo_call target_pascals
                    (mus (SciPy.slope fit') (SciPy.intercept fit') pressures)))).
Proof.
  split.
  - intros H.
    apply (loop_all_present pure_dirname pure_call mus_adsorbate s1).
    apply (loop_frame pure_dirname pure_call mus_adsorbate s s1 H).
  - intros fit fit' H.
    destruct (production_frame fit s s1 H) as (Hdirs & _).
    unfold production.
    rewrite (loop_all_present (fun pm : Z * float64 => zeo_dirname (fst pm))
               (fun pm => zeo_call (fst pm) (snd pm))).
    + rewrite map_zip_calls. reflexivity.
    + intros [P m] Hpm. cbn [fst]. apply Hdirs. eapply in_zip_inv, Hpm.
Qed.

Lemma rerun_creates_nothing_witness :
  exists s1 : state,
    pure_sweep (mk_state ∅ [] []) = Ok s1 /\
    pure_sweep s1
    = Ok (mk_state (fs s1) (mkdir_calls s1)
            (runs s1 ++ map pure_call mus_adsorbate)).
Proof.
  destruct (loop_succeeds pure_dirname pure_call mus_adsorbate
              (mk_state ∅ [] [])) as (s1 & E & _).
  { repeat constructor; vm_compute; discriminate. }
  exists s1. split; [exact E|].
  exact (proj1 (rerun_creates_nothing _ s1) E).
Defined.

(** X4: run directories do not collide.  For integers of magnitude up to
    2^53, which the formatting through a double prints digit for digit,
    two chemical potentials give different sweep names and two pressures
    give different production names, and a sweep name is never a
    production name; in particular the fifteen names of the notebook are
    pairwise different. *)
Theorem run_directory_names_distinct :
  (forall mu1 mu2 : Z,
      (Z.abs mu1 <= 2 ^ 53)%Z -> (Z.abs mu2 <= 2 ^ 53)%Z ->
      pure_dirname mu1 = pure_dirname mu2 -> mu1 = mu2) /\
  (forall P1 P2 : Z,
      (Z.abs P1 <= 2 ^ 53)%Z -> (Z.abs P2 <= 2 ^ 53)%Z ->
      zeo_dirname P1 = zeo_dirname P2 -> P1 = P2) /\
  (forall mu P : Z,
      (Z.abs mu <= 2 ^ 53)%Z -> (Z.abs P <= 2 ^ 53)%Z ->
      pure_dirname mu <> zeo_dirname P) /\
  Forall (fun z => (Z.abs z <= 2 ^ 53)%Z) (mus_adsorbate ++ target_pascals) /\
  NoDup (map pure_dirname mus_adsorbate ++ map zeo_dirname target_pascals).
Proof.
  assert (Hp : forall mu1 mu2 : Z, pure_dirname mu1 = pure_dirname mu2 -> mu1 = mu2).
  { intros mu1 mu2 H. unfold pure_dirname in H.
    apply (inj (String.app "pure_mu_")) in H. apply (inj pretty) in H. exact H. }
  assert (Hz : forall P1 P2 : Z, zeo_dirname P1 = zeo_dirname P2 -> P1 = P2).
  { intros P1 P2 H. unfold zeo_dirname in H.
    apply (inj (String.app "zeo_press_")) in H. apply (inj pretty) in H. exact H. }
  assert (Hpz : forall mu P : Z, pure_dirname mu <> zeo_dirname P).
  { intros mu P H. unfold pure_dirname, zeo_dirname in H. discriminate H. }
  split; [intros mu1 mu2 _ _; apply Hp|].
  split; [intros P1 P2 _ _; apply Hz|].
  split; [intros mu P _ _; apply Hpz|].
  split.
  { apply List.Forall_forall. intros z Hz'. vm_compute in Hz'.
    decompose [or] Hz'; subst; try contradiction; vm_compute; discriminate. }
  apply NoDup_app. split; [|split].
  - apply NoDup_fmap_2; [intros a b; apply Hp|].
    apply NoDup_ListNoDup. unfold mus_adsorbate. vm_compute.
    repeat (constructor; [simpl; intuition discriminate|]). constructor.
  - intros d Hd Hd'. apply list_elem_of_fmap in Hd as (mu & -> & _).
    apply list_elem_of_fmap in Hd' as (P & E & _). exact (Hpz _ _ E).
  - apply NoDup_fmap_2; [intros a b; apply Hz|].
    apply NoDup_ListNoDup. unfold target_pascals.
    repeat (constructor; [simpl; intuition discriminate|]). constructor.
Qed.

End Loops.

(** ** The averages and the analysis of one run *)

Section Averaging.

Import NumPy Notebook Reference.

Local Open Scope R_scope.

Lemma Rsum_bounds (lo hi : R) (l : list R) :
  Forall (fun v => lo <= v <= hi) l ->
  INR (length l) * lo <= Rsum l <= INR (length l) * hi.
Proof.
  induction 1 as [|v l Hv _ IH]; [simpl; lra|].
  rewrite INR_length_cons, Rsum_cons. lra.
Qed.

Lemma arith_mean_bounds (lo hi : R) (l : list R) :
  l <> [] ->
  Forall (fun v => lo <= v <= hi) l ->
  lo <= arith_mean l <= hi.
Proof.
  intros Hne Hl. pose proof (Rsum_bounds _ _ _ Hl) as [H1 H2].
  assert (Hn : 0 < INR (length l)).
  { destruct l; [congruence|]. apply lt_0_INR. simpl. lia. }
  unfold arith_mean. split.
  - apply Rmult_le_reg_r with (INR (length l)); [exact Hn|].
    replace (Rsum l / INR (length l) * INR (length l)) with (Rsum l)
      by (field; lra). lra.
  - apply Rmult_le_reg_r with (INR (length l)); [exact Hn|].
    replace (Rsum l / INR (length l) * INR (length l)) with (Rsum l)
      by (field; lra). lra.
Qed.

Lemma Forall_column (c : nat) (Q : R -> Prop) (rows : list (list R)) :
  Forall (fun r => Q (nth c r 0)) rows -> Forall Q (column c rows).
Proof. intros H. unfold column. apply Forall_map. exact H. Qed.

(** X6: the averages stay within the range of the values they average:
    when every pressure after the warm-up lies in [lo, hi] so does the mean
    pressure, which for lo > 0 is therefore positive and has a finite
    logarithm; when every molecule count after the warm-up lies in
    [lo, hi], the mean loading lies in [lo/12, hi/12]. *)
Theorem averages_within_range (k : nat) (warmup rest : list (list R))
    (lo hi : R) :
  Forall (fun r => length r = k) (warmup ++ rest) ->
  length warmup = 3000%nat ->
  rest <> [] ->
  ((pressure_col <= k)%nat ->
   Forall (fun r => lo <= nth 5 r 0 <= hi) rest ->
   exists p : R,
     py_bind (genfromtxt (Some (k, warmup ++ rest))) mean_pressure = Ok (Fin p) /\
     lo <= p <= hi /\
     (0 < lo -> log (Fin p) = Fin (ln p))) /\
  ((nmol_col <= k)%nat ->
   Forall (fun r => lo <= nth 8 r 0 <= hi) rest ->
   exists n : R,
     py_bind (genfromtxt (Some (k, warmup ++ rest))) mean_loading = Ok (Fin n) /\
     lo / 12 <= n <= hi / 12).
Proof.
  intros Hrect Hw Hrest.
  assert (Hlen : (2 <= length (warmup ++ rest))%nat)
    by (rewrite length_app, Hw; lia).
  assert (Hcol : forall c, column c rest <> []).
  { intros c Hc. apply Hrest, (column_nil_inv c), Hc. }
  split.
  - intros Hk Hb. exists (arith_mean (column 5 rest)).
    rewrite genfromtxt_table by (unfold pressure_col in Hk; first [assumption|lia]).
    cbn [py_bind]. rewrite (mean_pressure_rows _ _ Hk), (drop_warmup _ _ _ Hw).
    rewrite mean_Fin by apply Hcol.
    pose proof (arith_mean_bounds lo hi _ (Hcol 5%nat)
                  (Forall_column 5 (fun v => lo <= v <= hi) _ Hb)).
    split; [reflexivity|]. split; [assumption|].
    intros Hlo. apply log_Fin_pos. lra.
  - intros Hk Hb. exists (arith_mean (map (fun v => v / 12) (column 8 rest))).
    rewrite genfromtxt_table by (unfold nmol_col in Hk; first [assumption|lia]).
    cbn [py_bind]. rewrite (mean_loading_rows _ _ Hk), (drop_warmup _ _ _ Hw).
    assert (Hne : map (fun v => v / 12) (column 8 rest) <> []).
    { intros Hc. apply (Hcol 8%nat).
      destruct (column 8 rest); [reflexivity|discriminate]. }
    rewrite mean_Fin by exact Hne. split; [reflexivity|].
    apply arith_mean_bounds; [exact Hne|].
    apply Forall_map. eapply Forall_impl;
      [exact (Forall_column 8 (fun v => lo <= v <= hi) _ Hb)|].
    intros v Hv. cbv beta in *. lra.
Qed.

Lemma averages_within_range_witness :
  exists p : R,
    py_bind
      (genfromtxt
         (Some (9%nat,
                replicate 3000 [0; 0; 0; 0; 0; 1000; 0; 0; 600]
                ++ [[30000; 0; 0; 0; 0; 2; 0; 0; 24];
                    [30010; 0; 0; 0; 0; 4; 0; 0; 48]])))
      mean_pressure = Ok (Fin p) /\
    2 <= p <= 4 /\
    (0 < 2 -> log (Fin p) = Fin (ln p)).
Proof.
  destruct (averages_within_range 9
              (replicate 3000 [0; 0; 0; 0; 0; 1000; 0; 0; 600])
              [[30000; 0; 0; 0; 0; 2; 0; 0; 24];
               [30010; 0; 0; 0; 0; 4; 0; 0; 48]] 2 4)
    as (Hp & _).
  - apply Forall_app. split; [apply Forall_replicate; reflexivity|].
    repeat constructor.
  - apply length_replicate.
  - discriminate.
  - apply Hp.
    + unfold pressure_col. lia.
    + repeat constructor; simpl; lra.
Defined.

Lemma forallb_rectangular (k : nat) (rows : list (list R)) :
  forallb (fun r : list R => (length r =? k)%nat) rows = true <->
  Forall (fun r => length r = k) rows.
Proof.
  split; [|apply rectangular_forallb].
  induction rows as [|r rows IH]; [constructor|].
  simpl. intros H. apply andb_prop in H as [H1 H2].
  constructor; [apply Nat.eqb_eq, H1|apply IH, H2].
Qed.

(** The slice taken from a parsed file, by the shape of the file; [c] is a
    column index other than the first. *)
Lemma parsed_slice (c : nat) (contents : option (nat * list (list R))) :
  (1 <= c)%nat ->
  py_bind (genfromtxt contents) (slice_from_col 3000 c)
  = match contents with
    | None => Raise OSError
    | Some (k, rows) =>
        if forallb (fun r : list R => (length r =? k)%nat) rows then
          if (2 <=? length rows)%nat && (c <? k)%nat
          then Ok (column c (drop 3000 rows))
          else Raise IndexError
        else Raise ValueError
    end.
Proof.
  intros Hc. destruct contents as [[k rows]|]; [|reflexivity].
  unfold genfromtxt.
  destruct (forallb (fun r : list R => (length r =? k)%nat) rows); [|reflexivity].
  destruct rows as [|r1 [|r2 rows]].
  - reflexivity.
  - cbn [length Nat.leb andb squeeze py_bind].
    destruct r1 as [|x [|y r1]]; reflexivity.
  - cbn [squeeze]. change (2 <=? length (r1 :: r2 :: rows))%nat with true.
    cbn [andb]. destruct (Nat.eqb_spec k 1) as [->|Hk1]; cbn [py_bind slice_from_col].
    + destruct (Nat.ltb_spec c 1); [lia|reflexivity].
    + reflexivity.
Qed.

(** X7: what the analysis of one calibration run can do.  It returns a
    value exactly when the run's table exists, is rectangular, and has at
    least two data rows and six columns; a missing table raises OSError,
    rows of different lengths raise ValueError, and a table with fewer than
    two rows or fewer than six columns raises IndexError.  The analysis of
    a production run is the same with nine columns. *)
Theorem analysis_outcomes (files : tables) :
  (forall mu : Z,
      let path := (pure_dirname mu +:+ "/gcmc.out.prp")%string in
      ((exists v : float64, run_pressure files mu = Ok v) <->
       exists (k : nat) (rows : list (list R)),
         files !! path = Some (k, rows) /\
         Forall (fun r => length r = k) rows /\
         (2 <= length rows)%nat /\ (6 <= k)%nat) /\
      (files !! path = None -> run_pressure files mu = Raise OSError) /\
      (forall (k : nat) (rows : list (list R)),
          files !! path = Some (k, rows) ->
          (~ Forall (fun r => length r = k) rows ->
           run_pressure files mu = Raise ValueError) /\
          (Forall (fun r => length r = k) rows ->
           (length rows < 2)%nat \/ (k < 6)%nat ->
           run_pressure files mu = Raise IndexError))) /\
  (forall P : Z,
      let path := (zeo_dirname P +:+ "/gcmc.out.prp")%string in
      ((exists v : float64, run_loading files P = Ok v) <->
       exists (k : nat) (rows : list (list R)),
         files !! path = Some (k, rows) /\
         Forall (fun r => length r = k) rows /\
         (2 <= length rows)%nat /\ (9 <= k)%nat) /\
      (files !! path = None -> run_loading files P = Raise OSError) /\
      (forall (k : nat) (rows : list (list R)),
          files !! path = Some (k, rows) ->
          (~ Forall (fun r => length r = k) rows ->
           run_loading files P = Raise ValueError) /\
          (Forall (fun r => length r = k) rows ->
           (length rows < 2)%nat \/ (k < 9)%nat ->
           run_loading files P = Raise IndexError))).
Proof.
  assert (Hgen : forall (c : nat) (f : list R -> float64)
                        (contents : option (nat * list (list R))),
             (1 <= c)%nat ->
             let out := py_bind (genfromtxt contents)
                          (fun a => py_bind (slice_from_col 3000 c a)
                                      (fun col => Ok (f col))) in
             ((exists v : float64, out = Ok v) <->
              exists (k : nat) (rows : list (list R)),
                contents = Some (k, rows) /\
                Forall (fun r => length r = k) rows /\
                (2 <= length rows)%nat /\ (S c <= k)%nat) /\
             (contents = None -> out = Raise OSError) /\
             (forall (k : nat) (rows : list (list R)),
                 contents = Some (k, rows) ->
                 (~ Forall (fun r => length r = k) rows -> out = Raise ValueError) /\
                 (Forall (fun r => length r = k) rows ->
                  (length rows < 2)%nat \/ (k < S c)%nat ->
                  out = Raise IndexError))).
  { intros c f contents Hc out.
    assert (Hout : out = py_bind (py_bind (genfromtxt contents)
                                    (slice_from_col 3000 c))
                           (fun col => Ok (f col))).
    { unfold out. destruct (genfromtxt contents); reflexivity. }
    rewrite (parsed_slice c contents Hc) in Hout.
    destruct contents as [[k rows]|].
    - pose proof (forallb_rectangular k rows) as Hrect.
      destruct (forallb (fun r : list R => (length r =? k)%nat) rows).
      + assert (HF : Forall (fun r => length r = k) rows) by (apply Hrect; reflexivity).
        destruct (Nat.leb_spec 2 (length rows)) as [Hn|Hn];
          destruct (Nat.ltb_spec c k) as [Hk|Hk]; cbn [andb py_bind] in Hout.
        * split; [|split; [discriminate|]].
          -- split; [intros _; exists k, rows; repeat split; first [assumption|lia]|].
             intros _. eexists. exact Hout.
          -- intros k' rows' E. inversion E; subst. split; [tauto|].
             intros _ [H|H]; lia.
        * split; [|split; [discriminate|]].
          -- split; [intros (v & E); congruence|].
             intros (k' & rows' & E & _ & _ & Hk'). inversion E; subst. lia.
          -- intros k' rows' E. inversion E; subst. split; [tauto|].
             intros _ _. exact Hout.
        * split; [|split; [discriminate|]].
          -- split; [intros (v & E); congruence|].
             intros (k' & rows' & E & _ & Hn' & _). inversion E; subst. lia.
          -- intros k' rows' E. inversion E; subst. split; [tauto|].
             intros _ _. exact Hout.
        * split; [|split; [discriminate|]].
          -- split; [intros (v & E); congruence|].
             intros (k' & rows' & E & _ & Hn' & _). inversion E; subst. lia.
          -- intros k' rows' E. inversion E; subst. split; [tauto|].
             intros _ _. exact Hout.
      + assert (HF : ~ Forall (fun r => length r = k) rows).
        { intros H. apply Hrect in H. discriminate. }
        cbn [py_bind] in Hout.
        split; [|split; [discriminate|]].
        * split; [intros (v & E); congruence|].
          intros (k' & rows' & E & HF' & _). inversion E; subst. tauto.
        * intros k' rows' E. inversion E; subst. split; [intros _; exact Hout|tauto].
    - cbn [py_bind] in Hout.
      split; [|split; [intros _; exact Hout|intros k rows E; discriminate]].
      split; [intros (v & E); congruence|].
      intros (k & rows & E & _). discriminate. }
  split.
  - intros mu. exact (Hgen 5%nat (fun col => mean (map Fin col)) _ ltac:(lia)).
  - intros P.
    exact (Hgen 8%nat
             (fun col => mean (map (fun v : R => Fin (v / n_unitcells)) col))
             _ ltac:(lia)).
Qed.

Lemma analysis_outcomes_witness :
  run_pressure {["pure_mu_-46/gcmc.out.prp" := (9%nat, [[0; 0; 0; 0; 0; 7; 0; 0; 0]])]}
    (-46)
  = Raise IndexError
  /\ run_pressure {["pure_mu_-46/gcmc.out.prp" := (9%nat, [[0; 0; 0; 0; 0; 7; 0; 0; 0]])]}
       (-43)
     = Raise OSError.
Proof.
  split.
  - refine (proj2 (proj2 (proj2 (proj1 (analysis_outcomes _) (-46)%Z))
                     9%nat [[0; 0; 0; 0; 0; 7; 0; 0; 0]] _) _ _).
    + vm_compute. reflexivity.
    + repeat constructor.
    + left. simpl. lia.
  - apply (proj1 (proj2 (proj1 (analysis_outcomes _) (-43)%Z))).
    vm_compute. reflexivity.
Defined.

End Averaging.

(** ** From the analysis to the production runs *)

Section Pipeline.

Import NumPy Notebook Reference.
Local Open Scope R_scope.

Lemma py_mapM_length {A B} (f : A -> pyresult B) (l : list A) :
  forall r : list B, py_mapM f l = Ok r -> length r = length l.
Proof.
  induction l as [|a l IH]; intros r H; cbn [py_mapM] in H.
  - inversion H. reflexivity.
  - destruct (f a) as [b|e]; [|discriminate]. cbn [py_bind] in H.
    destruct (py_mapM f l) as [bs|e]; [|discriminate]. cbn [py_bind] in H.
    inversion H. simpl. f_equal. apply IH. reflexivity.
Qed.

Lemma py_mapM_In {A B} (f : A -> pyresult B) (l : list A) (a : A) :
  forall r : list B,
    py_mapM f l = Ok r -> In a l -> exists b : B, f a = Ok b /\ In b r.
Proof.
  induction l as [|x l IH]; intros r H Ha; [inversion Ha|].
  cbn [py_mapM] in H.
  destruct (f x) as [b|e] eqn:Ex; [|discriminate]. cbn [py_bind] in H.
  destruct (py_mapM f l) as [bs|e]; [|discriminate]. cbn [py_bind] in H.
  inversion H; subst. destruct Ha as [->|Ha].
  - exists b. split; [exact Ex|left; reflexivity].
  - destruct (IH bs eq_refl Ha) as (b' & Hb' & Hin).
    exists b'. split; [exact Hb'|right; exact Hin].
Qed.

Lemma py_mapM_Ok {A B} (f : A -> pyresult B) (g : A -> B) (l : list A) :
  (forall a : A, In a l -> f a = Ok (g a)) -> py_mapM f l = Ok (map g l).
Proof.
  induction l as [|x l IH]; intros H; [reflexivity|].
  cbn [py_mapM]. rewrite (H x) by (left; reflexivity). cbn [py_bind].
  rewrite IH by (intros a Ha; apply H; right; exact Ha). reflexivity.
Qed.

Lemma add_NaN_r (x : float64) : add x NaN = NaN.
Proof. destruct x; reflexivity. Qed.

Lemma sum_NaN (l : list float64) : In NaN l -> sum l = NaN.
Proof.
  induction l as [|a l IH]; intros H; [inversion H|].
  change (sum (a :: l)) with (add a (sum l)).
  destruct H as [->|H]; [reflexivity|]. rewrite (IH H). apply add_NaN_r.
Qed.

Lemma sum_nonfinite (l : list float64) :
  Exists (fun v => isfinite v = false) l -> isfinite (sum l) = false.
Proof.
  induction 1 as [a l Ha|a l _ IH];
    change (sum (a :: l)) with (add a (sum l)).
  - destruct a; [discriminate| | |]; destruct (sum l); reflexivity.
  - destruct (sum l); [discriminate| | |]; destruct a; reflexivity.
Qed.

Lemma sum_PInf_In (l : list float64) : sum l = PInf -> In PInf l.
Proof.
  induction l as [|a l IH]; [discriminate|].
  change (sum (a :: l)) with (add a (sum l)). intros H.
  destruct a; [right; apply IH; destruct (sum l); (discriminate || reflexivity)
              |left; reflexivity
              |destruct (sum l); discriminate
              |discriminate].
Qed.

Lemma sum_NInf_In (l : list float64) : sum l = NInf -> In NInf l.
Proof.
  induction l as [|a l IH]; [discriminate|].
  change (sum (a :: l)) with (add a (sum l)). intros H.
  destruct a; [right; apply IH; destruct (sum l); (discriminate || reflexivity)
              |destruct (sum l); discriminate
              |left; reflexivity
              |discriminate].
Qed.

(** Subtracting the mean from data that hold a non-finite value leaves a
    NaN among the deviations. *)
Lemma centred_has_NaN (x : list float64) :
  Exists (fun v => isfinite v = false) x ->
  In NaN (map (fun v => sub v (mean x)) x).
Proof.
  intros Hex. pose proof (sum_nonfinite _ Hex) as Hs.
  assert (Hn : ~ INR (length x) < 0).
  { pose proof (pos_INR (length x)). lra. }
  unfold mean. destruct (sum x) eqn:E; [discriminate| | |].
  - apply sum_PInf_In in E. apply in_map_iff. exists PInf.
    split; [|exact E]. cbn [div].
    destruct (Rlt_dec (INR (length x)) 0); [contradiction|reflexivity].
  - apply sum_NInf_In in E. apply in_map_iff. exists NInf.
    split; [|exact E]. cbn [div].
    destruct (Rlt_dec (INR (length x)) 0); [contradiction|reflexivity].
  - apply List.Exists_exists in Hex as (v & Hv & _).
    apply in_map_iff. exists v. split; [|exact Hv]. apply add_NaN_r.
Qed.

Lemma zip_with_mul_NaN (l k : list float64) :
  length l = length k -> In NaN l -> In NaN (zip_with mul l k).
Proof.
  revert k. induction l as [|a l IH]; intros [|b k] Hlen H;
    try discriminate; [inversion H|].
  destruct H as [->|H]; [left; reflexivity|].
  right. apply IH; [simpl in Hlen; lia|exact H].
Qed.

Lemma zip_with_mul_NaN_r (l k : list float64) :
  length l = length k -> In NaN k -> In NaN (zip_with mul l k).
Proof.
  revert k. induction l as [|a l IH]; intros [|b k] Hlen H;
    try discriminate; [inversion H|].
  destruct H as [->|H]; [left; destruct a; reflexivity|].
  right. apply IH; [simpl in Hlen; lia|exact H].
Qed.

Lemma mean_NaN (l : list float64) : In NaN l -> mean l = NaN.
Proof. intros H. unfold mean. rewrite (sum_NaN _ H). reflexivity. Qed.

Lemma linregress_nonfinite_x
    (significance : list float64 -> list float64 -> float64 -> float64 * float64)
    (x y : list float64) :
  length x = length y ->
  Exists (fun v => isfinite v = false) x ->
  exists fit : SciPy.LinregressResult,
    SciPy.linregress significance x y = Ok fit /\
    SciPy.slope fit = NaN /\
    SciPy.intercept fit = NaN.
Proof.
  intros Hlen Hex.
  pose proof (centred_has_NaN _ Hex) as Hdx.
  set (dx := map (fun v => sub v (mean x)) x) in Hdx.
  set (dy := map (fun v => sub v (mean y)) y).
  assert (Hldx : length dx = length x) by apply length_map.
  assert (Hldy : length dy = length y) by apply length_map.
  assert (Hxx : mean (zip_with mul dx dx) = NaN).
  { apply mean_NaN, zip_with_mul_NaN; [reflexivity|exact Hdx]. }
  assert (Hxy : mean (zip_with mul dx dy) = NaN).
  { apply mean_NaN, zip_with_mul_NaN; [congruence|exact Hdx]. }
  unfold SciPy.linregress.
  destruct x as [|a x]; [inversion Hex|].
  destruct y as [|b y]; [discriminate|].
  cbn [length Nat.eqb orb]. simpl in Hlen.
  replace (length x =? length y)%nat with true
    by (symmetry; apply Nat.eqb_eq; lia).
  cbn [negb]. eexists. split; [reflexivity|].
  cbn [SciPy.slope SciPy.intercept]. fold dx dy. rewrite Hxx, Hxy.
  split; [reflexivity|]. cbn [div mul]. apply add_NaN_r.
Qed.


Lemma calibrate_bad_pressure
    (significance : list float64 -> list float64 -> float64 -> float64 * float64)
    (mus_adsorbate pressures : list float64) :
  length mus_adsorbate = length pressures ->
  Exists (fun P => match P with Fin p => p <= 0 | _ => True end) pressures ->
  exists fit : SciPy.LinregressResult,
    calibrate significance mus_adsorbate pressures = Ok fit /\
    SciPy.slope fit = NaN /\
    SciPy.intercept fit = NaN.
Proof.
  intros Hlen Hbad. unfold calibrate.
  apply linregress_nonfinite_x.
  - rewrite length_map. congruence.
  - apply Exists_fmap. eapply Exists_impl; [exact Hbad|].
    intros [p| | |] HP; cbn beta; try reflexivity.
    apply log_Fin_nonpos. lra.
Qed.



Lemma pure_name_not_zeo_name (mu P : Z) : pure_dirname mu <> zeo_dirname P.
Proof. unfold pure_dirname, zeo_dirname. discriminate. Qed.

(** The notebook from the sweep to the production loop, when no run name
    is taken by a file and the analysis and the fit have returned. *)
Lemma notebook_ok
    (significance : list float64 -> list float64 -> float64 -> float64 * float64)
    (files : tables) (s : state) (ps : list float64)
    (fit : SciPy.LinregressResult) :
  Forall (fun mu => fs s !! pure_dirname mu <> Some OS.File) mus_adsorbate ->
  Forall (fun P => fs s !! zeo_dirname P <> Some OS.File) target_pascals ->
  pressures_of files = Ok ps ->
  calibrate significance (map (fun z => Fin (IZR z)) mus_adsorbate) ps = Ok fit ->
  exists s' : state,
    notebook significance files s = Ok s' /\
    runs s'
    = runs s ++ map pure_call mus_adsorbate
      ++ zip_with zeo_call target_pascals
           (mus (SciPy.slope fit) (SciPy.intercept fit) pressures).
Proof.
  intros Hpure Hzeo Hps Hfit.
  destruct (loop_succeeds pure_dirname pure_call mus_adsorbate s Hpure)
    as (s1 & E1 & R1).
  destruct (loop_frame pure_dirname pure_call mus_adsorbate s s1 E1)
    as (_ & _ & _ & Hout).
  destruct (production_runs fit s1) as (s' & E & Rn).
  { eapply Forall_impl; [exact Hzeo|]. intros P HP. cbv beta in *.
    rewrite Hout; [exact HP|]. intros mu _. apply pure_name_not_zeo_name. }
  exists s'. split.
  - unfold notebook. change (pure_sweep s) with
      (py_foldM (fun a => iteration (pure_dirname a) (pure_call a)) mus_adsorbate s).
    rewrite E1. cbn [py_bind]. rewrite Hps. cbn [py_bind].
    rewrite Hfit. cbn [py_bind]. exact E.
  - rewrite Rn, R1, <- app_assoc. reflexivity.
Qed.

Lemma run_pressure_short (files : tables) (mu : Z) (k : nat)
    (rows : list (list R)) :
  files !! (pure_dirname mu +:+ "/gcmc.out.prp")%string = Some (k, rows) ->
  Forall (fun r => length r = k) rows ->
  (2 <= length rows <= 3000)%nat ->
  (pressure_col <= k)%nat ->
  run_pressure files mu = Ok NaN.
Proof.
  intros Hfile Hrect [Hlo Hhi] Hk. unfold run_pressure. rewrite Hfile.
  rewrite genfromtxt_table by (unfold pressure_col in Hk; first [assumption|lia]).
  cbn [py_bind]. rewrite (mean_pressure_rows _ _ Hk).
  rewrite drop_ge by exact Hhi. f_equal. apply mean_nil.
Qed.

Lemma run_pressure_long (files : tables) (mu : Z) (k : nat)
    (warmup rest : list (list R)) :
  files !! (pure_dirname mu +:+ "/gcmc.out.prp")%string
  = Some (k, warmup ++ rest) ->
  Forall (fun r => length r = k) (warmup ++ rest) ->
  length warmup = 3000%nat ->
  rest <> [] ->
  (pressure_col <= k)%nat ->
  run_pressure files mu = Ok (Fin (arith_mean (column 5 rest))).
Proof.
  intros Hfile Hrect Hw Hrest Hk. unfold run_pressure. rewrite Hfile.
  rewrite genfromtxt_table;
    [|exact Hrect|rewrite length_app, Hw; lia|unfold pressure_col in Hk; lia].
  cbn [py_bind]. rewrite (mean_pressure_rows _ _ Hk), (drop_warmup _ _ _ Hw).
  rewrite mean_Fin; [reflexivity|].
  intros Hc. apply Hrest, (column_nil_inv 5), Hc.
Qed.

Lemma calibration_files_lookup (table : Z -> nat * list (list R)) (mu : Z) :
  In mu mus_adsorbate ->
  Samples.calibration_files table !! (pure_dirname mu +:+ "/gcmc.out.prp")%string
  = Some (table mu).
Proof.
  intros Hmu. vm_compute in Hmu.
  decompose [or] Hmu; subst; try contradiction; vm_compute; reflexivity.
Qed.

(** X10: a calibration run that stopped early is not noticed: when one of
    the seven tables has between two and 3000 rows (and the others can be
    analysed), the notebook still runs to the end, and launches every
    production run with NaN as chemical potential. *)
Theorem short_calibration_run_poisons_production
    (significance : list float64 -> list float64 -> float64 -> float64 * float64)
    (files : tables) (s : state) (mu : Z) (k : nat) (rows : list (list R))
    (ps : list float64) :
  In mu mus_adsorbate ->
  files !! (pure_dirname mu +:+ "/gcmc.out.prp")%string = Some (k, rows) ->
  Forall (fun r => length r = k) rows ->
  (2 <= length rows <= 3000)%nat ->
  (pressure_col <= k)%nat ->
  pressures_of files = Ok ps ->
  Forall (fun mu => fs s !! pure_dirname mu <> Some OS.File) mus_adsorbate ->
  Forall (fun P => fs s !! zeo_dirname P <> Some OS.File) target_pascals ->
  exists s' : state,
    notebook significance files s = Ok s' /\
    runs s'
    = runs s ++ map pure_call mus_adsorbate
      ++ map (fun P : Z => zeo_call P NaN) target_pascals.
Proof.
  intros Hmu Hfile Hrect Hlen Hk Hps Hpure Hzeo.
  pose proof (run_pressure_short _ _ _ _ Hfile Hrect Hlen Hk) as Hnan.
  destruct (py_mapM_In _ _ mu ps Hps Hmu) as (b & Hb & Hin).
  unfold pressures_of in Hps.
  assert (b = NaN) by congruence. subst b.
  destruct (calibrate_bad_pressure significance
              (map (fun z => Fin (IZR z)) mus_adsorbate) ps)
    as (fit & Hfit & Hs & Hi).
  - rewrite length_map. symmetry. eapply py_mapM_length, Hps.
  - apply List.Exists_exists. exists NaN. split; [exact Hin|exact I].
  - destruct (notebook_ok significance files s ps fit Hpure Hzeo Hps Hfit)
      as (s' & E & Rn).
    exists s'. split; [exact E|]. rewrite Rn, Hs, Hi.
    unfold pressures. rewrite mus_any, List.map_map.
    rewrite (zip_with_map_same zeo_call (fun _ => NaN)). reflexivity.
Qed.

Lemma short_calibration_run_poisons_production_witness :
  exists s' : state,
    notebook (fun _ _ _ => (NaN, NaN))
      (Samples.calibration_files (fun _ => Samples.short_table))
      (mk_state ∅ [] []) = Ok s' /\
    runs s'
    = map pure_call mus_adsorbate
      ++ map (fun P : Z => zeo_call P NaN) target_pascals.
Proof.
  apply (short_calibration_run_poisons_production (fun _ _ _ => (NaN, NaN))
           (Samples.calibration_files (fun _ => Samples.short_table))
           (mk_state ∅ [] []) (-46) 9
           [[10; 0; 0; 0; 0; 2; 0; 0; 24]; [20; 0; 0; 0; 0; 4; 0; 0; 48]]
           (map (fun _ => NaN) mus_adsorbate)).
  - vm_compute. tauto.
  - apply (calibration_files_lookup (fun _ => Samples.short_table)).
    vm_compute. tauto.
  - repeat constructor.
  - simpl. lia.
  - unfold pressure_col. lia.
  - apply py_mapM_Ok. intros mu Hmu.
    apply (run_pressure_short _ _ 9
             [[10; 0; 0; 0; 0; 2; 0; 0; 24]; [20; 0; 0; 0; 0; 4; 0; 0; 48]]).
    + apply (calibration_files_lookup (fun _ => Samples.short_table)), Hmu.
    + repeat constructor.
    + simpl. lia.
    + unfold pressure_col. lia.
  - repeat constructor; vm_compute; discriminate.
  - repeat constructor; vm_compute; discriminate.
Defined.

Lemma map_fst_zip_same {A B} (l : list A) (k : list B) :
  length l = length k -> map fst (zip l k) = l /\ map snd (zip l k) = k.
Proof.
  revert k. induction l as [|a l IH]; intros [|b k] Hlen; try discriminate.
  - split; reflexivity.
  - destruct (IH k) as [H1 H2]; [simpl in Hlen; lia|].
    simpl. rewrite H1, H2. split; reflexivity.
Qed.

(** X11: the notebook end to end.  When no run name is taken by a file and
    the seven tables give positive mean pressures of which two differ, the
    notebook runs to the end: it launches the seven calibration runs and
    then the eight production runs, each at the finite chemical potential
    slope * ln(P / 100000) + intercept, where slope and intercept are the
    least-squares line through the points (ln(mean pressure), mu) of the
    sweep. *)
Theorem notebook_succeeds
    (significance : list float64 -> list float64 -> float64 -> float64 * float64)
    (files : tables) (s : state) (ps : list R) :
  Forall (fun mu => fs s !! pure_dirname mu <> Some OS.File) mus_adsorbate ->
  Forall (fun P => fs s !! zeo_dirname P <> Some OS.File) target_pascals ->
  pressures_of files = Ok (map Fin ps) ->
  Forall (fun P => 0 < P) ps ->
  two_distinct ps ->
  exists (s' : state) (slope intercept : R),
    notebook significance files s = Ok s' /\
    runs s'
    = runs s ++ map pure_call mus_adsorbate
      ++ map (fun P : Z =>
                zeo_call P (Fin (slope * ln (IZR P / 100000) + intercept)))
           target_pascals /\
    (forall a b : R,
        sse slope intercept (points_of (zip (map IZR mus_adsorbate) ps))
        <= sse a b (points_of (zip (map IZR mus_adsorbate) ps))).
Proof.
  intros Hpure Hzeo Hps Hpos Hdist.
  assert (Hlen : length (map IZR mus_adsorbate) = length ps).
  { pose proof (py_mapM_length _ _ _ Hps) as H.
    rewrite !length_map in *. congruence. }
  set (data := zip (map IZR mus_adsorbate) ps).
  destruct (map_fst_zip_same _ _ Hlen) as [Hfst Hsnd]. fold data in Hfst, Hsnd.
  assert (Hdpos : Forall (fun d : R * R => 0 < snd d) data).
  { apply Forall_map. rewrite Hsnd. exact Hpos. }
  assert (Hddist : two_distinct (map snd data)) by (rewrite Hsnd; exact Hdist).
  pose proof (distinct_logs _ Hdpos Hddist) as Hd.
  assert (Hne : points_of data <> []).
  { destruct Hd as (a & _ & Ha & _). intros E. rewrite E in Ha. inversion Ha. }
  destruct (linregress_points_ols significance _ Hd) as (fit & Hfit & Hs & Hi).
  rewrite <- (calibrate_points _ _ Hdpos) in Hfit.
  assert (Hx : map (fun d : R * R => Fin (fst d)) data
               = map (fun z => Fin (IZR z)) mus_adsorbate).
  { rewrite <- (List.map_map fst Fin), Hfst, List.map_map. reflexivity. }
  assert (Hy : map (fun d : R * R => Fin (snd d)) data = map Fin ps).
  { rewrite <- (List.map_map snd Fin), Hsnd. reflexivity. }
  rewrite Hx, Hy in Hfit.
  destruct (notebook_ok significance files s _ fit Hpure Hzeo Hps Hfit)
    as (s' & E & Rn).
  exists s', (ols_slope (points_of data)), (ols_intercept (points_of data)).
  split; [exact E|]. split.
  - rewrite Rn, Hs, Hi. do 2 f_equal.
    unfold pressures. rewrite (mus_Pa _ _ _ target_pascals_pos), List.map_map.
    apply zip_with_map_same.
  - intros a b. apply ols_minimises; [exact Hne|apply cov_xx_pos, Hd].
Qed.

Lemma notebook_succeeds_witness :
  exists (s' : state) (slope intercept : R),
    notebook (fun _ _ _ => (NaN, NaN))
      (Samples.calibration_files (fun mu => Samples.long_table (IZR (mu + 50))))
      (mk_state ∅ [] []) = Ok s' /\
    runs s'
    = runs (mk_state ∅ [] []) ++ map pure_call mus_adsorbate
      ++ map (fun P : Z =>
                zeo_call P (Fin (slope * ln (IZR P / 100000) + intercept)))
           target_pascals /\
    (forall a b : R,
        sse slope intercept
          (points_of
             (zip (map IZR mus_adsorbate)
                (map (fun mu : Z => arith_mean [IZR (mu + 50)]) mus_adsorbate)))
        <= sse a b
             (points_of
                (zip (map IZR mus_adsorbate)
                   (map (fun mu : Z => arith_mean [IZR (mu + 50)])
                      mus_adsorbate)))).
Proof.
  apply (notebook_succeeds (fun _ _ _ => (NaN, NaN))
           (Samples.calibration_files (fun mu => Samples.long_table (IZR (mu + 50))))
           (mk_state ∅ [] [])
           (map (fun mu : Z => arith_mean [IZR (mu + 50)]) mus_adsorbate)).
  - repeat constructor; vm_compute; discriminate.
  - repeat constructor; vm_compute; discriminate.
  - rewrite List.map_map. apply py_mapM_Ok. intros mu Hmu.
    apply (run_pressure_long _ _ 9
             (replicate 3000 [0; 0; 0; 0; 0; 1000; 0; 0; 600])
             [[30000; 0; 0; 0; 0; IZR (mu + 50); 0; 0; 24]]).
    + apply (calibration_files_lookup
               (fun mu => Samples.long_table (IZR (mu + 50)))), Hmu.
    + apply Forall_app. split; [apply Forall_replicate; reflexivity|].
      repeat constructor.
    + apply length_replicate.
    + discriminate.
    + unfold pressure_col. lia.
  - rewrite List.Forall_forall. intros P HP.
    apply in_map_iff in HP as (mu & <- & Hmu). vm_compute in Hmu.
    unfold arith_mean, Rsum.
    decompose [or] Hmu; subst; try contradiction; simpl;
      rewrite plus_IZR; lra.
  - exists (arith_mean [IZR (-46 + 50)]), (arith_mean [IZR (-43 + 50)]).
    split; [left; reflexivity|]. split; [right; left; reflexivity|].
    unfold arith_mean, Rsum. simpl. rewrite !plus_IZR. lra.
Defined.

End Pipeline.

(** ** The chemical potentials as a function of the target pressures *)

Section TargetPressures.

Import NumPy Notebook Reference.
Local Open Scope R_scope.

Lemma base_value_pos (u : Unyt.unit) : 0 < Unyt.base_value u.
Proof. destruct u; simpl; lra. Qed.

Lemma in_units_twice (a : Unyt.unyt_array) (u v : Unyt.unit) :
  Unyt.in_units (Unyt.in_units a u) v = Unyt.in_units a v.
Proof.
  unfold Unyt.in_units. cbn [Unyt.values Unyt.units]. f_equal.
  rewrite List.map_map. apply map_ext. intros x.
  pose proof (base_value_pos u). pose proof (base_value_pos v).
  field. lra.
Qed.

(** X12: the chemical potentials do not depend on the unit the target
    pressures are written in: converting the targets to pascals or to bar
    beforehand gives the same list, because the notebook converts to bar
    itself; and a conversion there and back returns the same numbers. *)
Theorem mus_independent_of_unit (slope intercept : float64)
    (a : Unyt.unyt_array) (u : Unyt.unit) :
  mus slope intercept (Unyt.in_units a u) = mus slope intercept a /\
  Unyt.in_units (Unyt.in_units a u) (Unyt.units a) = a.
Proof.
  split.
  - unfold mus. rewrite in_units_twice. reflexivity.
  - rewrite in_units_twice. destruct a as [vs ua].
    unfold Unyt.in_units. cbn [Unyt.values Unyt.units]. f_equal.
    rewrite <- (map_id vs) at 2. apply map_ext. intros x.
    pose proof (base_value_pos ua). field. lra.
Qed.

(** X13: along the fitted line the chemical potential follows the
    pressure: for two positive targets P1 < P2 the two values differ by
    slope * ln(P2 / P1), whatever the intercept; so a positive slope gives
    the larger chemical potential to the larger pressure, a negative slope
    the smaller one, and a zero slope the same one. *)
Theorem mus_follow_pressure (slope intercept P1 P2 : R) :
  0 < P1 ->
  P1 < P2 ->
  exists m1 m2 : R,
    mus (Fin slope) (Fin intercept) (Unyt.mk_array [P1; P2] Unyt.Pa)
    = [Fin m1; Fin m2] /\
    m2 - m1 = slope * ln (P2 / P1) /\
    (0 < slope -> m1 < m2) /\
    (slope < 0 -> m2 < m1) /\
    (slope = 0 -> m1 = intercept /\ m2 = intercept).
Proof.
  intros H1 H12.
  exists (slope * ln (P1 / 100000) + intercept),
         (slope * ln (P2 / 100000) + intercept).
  assert (Hln : ln (P1 / 100000) < ln (P2 / 100000)).
  { apply ln_increasing; lra. }
  assert (Hdiff : ln (P2 / 100000) - ln (P1 / 100000) = ln (P2 / P1)).
  { replace (P2 / 100000) with ((P2 / P1) * (P1 / 100000)) by (field; lra).
    rewrite ln_mult; [ring| |lra].
    apply Rdiv_lt_0_compat; lra. }
  split.
  - apply (mus_Pa slope intercept [P1; P2]). repeat constructor; lra.
  - split; [rewrite <- Hdiff; ring|].
    split; [intros Hs; nra|]. split; [intros Hs; nra|].
    intros ->. split; ring.
Qed.

Lemma mus_follow_pressure_witness :
  exists m1 m2 : R,
    mus (Fin 3) (Fin (-40)) (Unyt.mk_array [6000; 22100] Unyt.Pa)
    = [Fin m1; Fin m2] /\
    m2 - m1 = 3 * ln (22100 / 6000) /\
    (0 < 3 -> m1 < m2) /\
    (3 < 0 -> m2 < m1) /\
    (3 = 0 -> m1 = -40 /\ m2 = -40).
Proof.
  apply (mus_follow_pressure 3 (-40) 6000 22100); lra.
Defined.

End TargetPressures.
